(** * MAX17262 battery gauge driver (scripts/libraries/max17262.py)

    A shallow embedding of the driver class [MAX17262] and of the Python
    primitives it calls ([struct.pack], [struct.unpack], [int], float
    arithmetic, [time.sleep_ms] and the I2C bus object), followed by the
    properties of the driver.

    Conventions of the embedding:
    - Python [int] is [Z]; Python [float] is an IEEE 754 binary64 number
      (Rocq's primitive [float]); [bytes] is [list byte].
    - The module runs under MicroPython (it imports [time.sleep_ms] and is
      given a [machine.I2C]), and [struct] is MicroPython's: [pack] checks no
      range and stores the low 16 bits of the value; [unpack] raises
      [ValueError] on a buffer shorter than the format and reads the first two
      bytes of a longer one.
    - The I2C bus is an external object.  Its behaviour is a parameter (class
      [I2C]); every call to it is recorded, in order, in the events of a run.
    - A [while] loop is run with a bound on the number of times its condition
      is evaluated; a run that exhausts the bound ends in [OutOfFuel], and a
      loop that ends in [OutOfFuel] for every bound does not terminate. *)

From Stdlib Require Import ZArith List Bool Lia Floats String.
From Stdlib Require Import Strings.Byte.
Import ListNotations.

Local Open Scope Z_scope.
Local Set Warnings "-inexact-float".

(** ** Exceptions and fallible pure computations *)

Inductive exn : Type :=
| ValueError
| OverflowError
| ZeroDivisionError
| IndexError
| OSError (errno : Z).

Inductive result (A : Type) : Type :=
| Ok (a : A)
| Err (e : exn).

Arguments Ok {A} a.
Arguments Err {A} e.

Definition rbind {A C : Type} (r : result A) (k : A -> result C) : result C :=
  match r with
  | Ok a => k a
  | Err e => Err e
  end.

(** ** Python numbers *)

Module Py.

(** An argument that is an [int] or a [float]. *)
Inductive number : Type :=
| Int (z : Z)
| Float (f : float).

(** [float(z)]: the nearest binary64 number, ties to even;
    [OverflowError] when [z] is too large for a float. *)
Definition float_of_int (z : Z) : result float :=
  let f := SF2Prim (binary_normalize prec emax z 0 false) in
  if PrimFloat.is_infinity f then Err OverflowError else Ok f.

Definition to_float (x : number) : result float :=
  match x with
  | Int z => float_of_int z
  | Float f => Ok f
  end.

(** [a / b] with a float divisor [b]. *)
Definition truediv (a : number) (b : float) : result float :=
  rbind (to_float a) (fun x =>
    if PrimFloat.eqb b PrimFloat.zero then Err ZeroDivisionError
    else Ok (PrimFloat.div x b)).

(** [z * f] with an int [z] and a float [f]. *)
Definition mul_int_float (z : Z) (f : float) : result float :=
  rbind (float_of_int z) (fun x => Ok (PrimFloat.mul x f)).

(** [int(f)]: the integral part of [f], rounding toward zero. *)
Definition int (f : float) : result Z :=
  match Prim2SF f with
  | S754_zero _ => Ok 0
  | S754_infinity _ => Err OverflowError
  | S754_nan => Err ValueError
  | S754_finite s m e =>
      let n := if s then Z.neg m else Z.pos m in
      Ok (if 0 <=? e then n * 2 ^ e else Z.quot n (2 ^ (- e)))
  end.

(** Truthiness of an int, as tested by [while] and [if]. *)
Definition truthy (z : Z) : bool := negb (z =? 0).

(** [t[i]] on a tuple. *)
Definition getitem {A : Type} (t : list A) (i : nat) : result A :=
  match nth_error t i with
  | Some a => Ok a
  | None => Err IndexError
  end.

End Py.

(** ** The [struct] module, for the two formats the driver uses *)

Module Struct.

Definition byte_of_Z (z : Z) : byte :=
  match Byte.of_N (Z.to_N (z mod 256)) with
  | Some b => b
  | None => x00
  end.

Definition Z_of_byte (b : byte) : Z := Z.of_N (Byte.to_N b).

(** Little-endian bytes of a 16-bit word. *)
Definition le16 (w : Z) : list byte :=
  [byte_of_Z w; byte_of_Z (Z.shiftr w 8)].

(** [pack(fmt, v)] for ["<H"] (unsigned short) and ["<h"] (short): the two
    low bytes of [v] in two's complement, whatever [v] is.  MicroPython checks
    no range, for either format code. *)
Definition pack (fmt : string) (v : Z) : result (list byte) :=
  if String.eqb fmt "<H" then Ok (le16 (v mod 65536))
  else if String.eqb fmt "<h" then Ok (le16 (v mod 65536))
  else Err ValueError.

(** [unpack(fmt, data)]: a tuple with one element, read from the first two
    bytes of [data]; [ValueError] ("buffer too small") when there are fewer. *)
Definition unpack (fmt : string) (data : list byte) : result (list Z) :=
  match data with
  | b0 :: b1 :: _ =>
      let w := Z.lor (Z_of_byte b0) (Z.shiftl (Z_of_byte b1) 8) in
      if String.eqb fmt "<H" then Ok [w]
      else if String.eqb fmt "<h" then
        Ok [if w <? 32768 then w else w - 65536]
      else Err ValueError
  | _ => Err ValueError
  end.

End Struct.

(** ** Module constants *)

Definition DEVICE_ADDRESS : Z := 0x36.

Definition REG_DesignCap : Z := 0x18.
Definition REG_ModelCfg : Z := 0xDB.
Definition REG_IChgTerm : Z := 0x1E.
Definition REG_FStat : Z := 0x3D.

Definition REG_RepCap : Z := 0x05.
Definition REG_RepSOC : Z := 0x06.
Definition REG_TTE : Z := 0x11.
Definition REG_TTF : Z := 0x20.
Definition REG_VCell : Z := 0x09.
Definition REG_Current : Z := 0x0A.
Definition REG_DieTemp : Z := 0x34.

Definition LSB_PERCENTAGE : float := (1.0 / 256.0)%float.
Definition LSB_VOLTAGE : float := (1.25 / 16.0)%float.
Definition LSB_TEMPERATURE : float := (1.0 / 256.0)%float.
Definition LSB_TIME : float := 5.625%float.
Definition LSB_CAPACITY_R : float := 0.5%float.
Definition LSB_CAPACITY_H : float := 0.1667%float.
Definition LSB_CURRENT_R : float := 156.25%float.
Definition LSB_CURRENT_H : float := 52.083%float.
Definition LSB_RESISTANCE_R : float := (1.0 / 4096.0)%float.
Definition LSB_RESISTANCE_H : float := (1.0 / 12288.0)%float.

(** ** The I2C bus object *)

(** A reference to a bus object ([I2C(2)] is bus 2). *)
Definition handle : Type := nat.

(** The two methods of [machine.I2C] the driver calls, as transitions of the
    state of the outside world: [readfrom_mem(addr, memaddr, nbytes)] and
    [writeto_mem(addr, memaddr, buf)].  Either may raise. *)
Class I2C (Bus : Type) : Type := {
  readfrom_mem : Bus -> handle -> Z -> Z -> Z -> result (list byte) * Bus;
  writeto_mem : Bus -> handle -> Z -> Z -> list byte -> result unit * Bus
}.

(** What a run does to the outside world, in order. *)
Inductive event : Type :=
| ReadFromMem (i2c : handle) (addr mem_addr nbytes : Z) (res : result (list byte))
| WriteToMem (i2c : handle) (addr mem_addr : Z) (buf : list byte) (res : result unit)
| SleepMs (ms : Z).

(** The register writes among some events: device address, register, bytes. *)
Definition write_of (ev : event) : list (Z * Z * list byte) :=
  match ev with
  | WriteToMem _ addr mem_addr buf _ => [(addr, mem_addr, buf)]
  | _ => []
  end.

Definition writes (evs : list event) : list (Z * Z * list byte) :=
  flat_map write_of evs.

Definition is_write (ev : event) : bool :=
  match ev with
  | WriteToMem _ _ _ _ _ => true
  | _ => false
  end.

(** ** The driver object *)

(** The attributes [__init__] sets on [self]. *)
Record MAX17262 : Type := mkMAX17262 {
  self_i2c : handle;
  self_address : Z;
  self_is_r_type : bool
}.

(** ** Runs

    The state a method runs in: the driver object and the outside world. *)
Record state (Bus : Type) : Type := mkState {
  self : MAX17262;
  bus : Bus
}.

Arguments mkState {Bus} self bus.
Arguments self {Bus} s.
Arguments bus {Bus} s.

Inductive outcome (A : Type) : Type :=
| Returned (a : A)
| Raised (e : exn)
| OutOfFuel.

Arguments Returned {A} a.
Arguments Raised {A} e.
Arguments OutOfFuel {A}.

(** A run: how it ended, the state it left and the events it produced. *)
Record run (Bus A : Type) : Type := mkRun {
  out : outcome A;
  st : state Bus;
  evs : list event
}.

Arguments mkRun {Bus A} out st evs.
Arguments out {Bus A} r.
Arguments st {Bus A} r.
Arguments evs {Bus A} r.

Definition M (Bus A : Type) : Type := state Bus -> run Bus A.

Definition ret {Bus A : Type} (a : A) : M Bus A :=
  fun s => mkRun (Returned a) s [].

Definition bind {Bus A C : Type} (m : M Bus A) (k : A -> M Bus C) : M Bus C :=
  fun s =>
    let r := m s in
    match out r with
    | Returned a =>
        let r' := k a (st r) in
        mkRun (out r') (st r') (evs r ++ evs r')
    | Raised e => mkRun (Raised e) (st r) (evs r)
    | OutOfFuel => mkRun OutOfFuel (st r) (evs r)
    end.

(** A pure computation that may raise. *)
Definition lift {Bus A : Type} (r : result A) : M Bus A :=
  fun s =>
    match r with
    | Ok a => mkRun (Returned a) s []
    | Err e => mkRun (Raised e) s []
    end.

Definition get_self {Bus : Type} : M Bus MAX17262 :=
  fun s => mkRun (Returned (self s)) s [].

Definition set_self {Bus : Type} (f : MAX17262 -> MAX17262) : M Bus unit :=
  fun s => mkRun (Returned tt) (mkState (f (self s)) (bus s)) [].

Definition sleep_ms {Bus : Type} (ms : Z) : M Bus unit :=
  fun s => mkRun (Returned tt) s [SleepMs ms].

Notation "x <- m ;; k" := (bind m (fun x => k))
  (at level 61, m at next level, right associativity).
Notation "m ;; k" := (bind m (fun _ => k))
  (at level 61, right associativity).

(** [while cond: body], with [fuel] evaluations of [cond] at most. *)
Fixpoint while_ {Bus : Type} (fuel : nat) (cond : M Bus bool) (body : M Bus unit)
  : M Bus unit :=
  match fuel with
  | O => fun s => mkRun OutOfFuel s []
  | S fuel' =>
      c <- cond ;;
      if c then body ;; while_ fuel' cond body else ret tt
  end.

Section Driver.

Context {Bus : Type} {I2C_Bus : I2C Bus}.

(** ** Calls to the outside world *)

Definition i2c_readfrom_mem (i2c : handle) (addr mem_addr nbytes : Z)
  : M Bus (list byte) :=
  fun s =>
    let (res, b) := readfrom_mem (bus s) i2c addr mem_addr nbytes in
    let s' := mkState (self s) b in
    let ev := ReadFromMem i2c addr mem_addr nbytes res in
    match res with
    | Ok data => mkRun (Returned data) s' [ev]
    | Err e => mkRun (Raised e) s' [ev]
    end.

Definition i2c_writeto_mem (i2c : handle) (addr mem_addr : Z) (buf : list byte)
  : M Bus unit :=
  fun s =>
    let (res, b) := writeto_mem (bus s) i2c addr mem_addr buf in
    let s' := mkState (self s) b in
    let ev := WriteToMem i2c addr mem_addr buf res in
    match res with
    | Ok _ => mkRun (Returned tt) s' [ev]
    | Err e => mkRun (Raised e) s' [ev]
    end.

(** ** class MAX17262 *)

Definition read_int16 (mem_addr : Z) : M Bus Z :=
  me <- get_self ;;
  data <- i2c_readfrom_mem (self_i2c me) (self_address me) mem_addr 2 ;;
  t <- lift (Struct.unpack "<h" data) ;;
  lift (Py.getitem t 0).

Definition read_uint16 (mem_addr : Z) : M Bus Z :=
  me <- get_self ;;
  data <- i2c_readfrom_mem (self_i2c me) (self_address me) mem_addr 2 ;;
  t <- lift (Struct.unpack "<H" data) ;;
  lift (Py.getitem t 0).

(** [int(x / lsb)]. *)
Definition int_div (x : Py.number) (lsb : float) : M Bus Z :=
  q <- lift (Py.truediv x lsb) ;;
  lift (Py.int q).

Definition __init__ (fuel : nat) (i2c : handle)
  (capacity terminationCurrent : Py.number)
  (lowVoltage : bool) (address : Z) (is_r_type : bool) : M Bus unit :=
  set_self (fun me => mkMAX17262 i2c (self_address me) (self_is_r_type me)) ;;
  set_self (fun me => mkMAX17262 (self_i2c me) address (self_is_r_type me)) ;;
  set_self (fun me => mkMAX17262 (self_i2c me) (self_address me) is_r_type) ;;
  while_ fuel
    (v <- read_uint16 REG_FStat ;; ret (Py.truthy (Z.land v 0x0001)))
    (sleep_ms 10) ;;
  cc <- (if is_r_type then
           cap <- int_div capacity LSB_CAPACITY_R ;;
           cur <- int_div terminationCurrent LSB_CURRENT_R ;;
           ret (cap, cur)
         else
           cap <- int_div capacity LSB_CAPACITY_H ;;
           cur <- int_div terminationCurrent LSB_CURRENT_H ;;
           ret (cap, cur)) ;;
  me <- get_self ;;
  buf <- lift (Struct.pack "<H" (fst cc)) ;;
  i2c_writeto_mem (self_i2c me) (self_address me) REG_DesignCap buf ;;
  me <- get_self ;;
  buf <- lift (Struct.pack "<h" (snd cc)) ;;
  i2c_writeto_mem (self_i2c me) (self_address me) REG_IChgTerm buf ;;
  (if lowVoltage then
     me <- get_self ;;
     i2c_writeto_mem (self_i2c me) (self_address me) REG_ModelCfg [x00; x80]
   else
     me <- get_self ;;
     i2c_writeto_mem (self_i2c me) (self_address me) REG_ModelCfg [x00; x84]) ;;
  while_ fuel
    (v <- read_uint16 REG_ModelCfg ;; ret (Py.truthy (Z.land v 0x8000)))
    (sleep_ms 10).

Definition state_of_charge : M Bus float :=
  raw <- read_uint16 REG_RepSOC ;;
  lift (Py.mul_int_float raw LSB_PERCENTAGE).

Definition time_to_empty : M Bus float :=
  raw <- read_uint16 REG_TTE ;;
  lift (Py.mul_int_float raw LSB_TIME).

Definition time_to_full : M Bus float :=
  raw <- read_uint16 REG_TTF ;;
  lift (Py.mul_int_float raw LSB_TIME).

Definition current : M Bus float :=
  me <- get_self ;;
  if self_is_r_type me then
    raw <- read_int16 REG_Current ;;
    lift (Py.mul_int_float raw LSB_CURRENT_R)
  else
    raw <- read_int16 REG_Current ;;
    lift (Py.mul_int_float raw LSB_CURRENT_H).

Definition voltage : M Bus float :=
  raw <- read_uint16 REG_VCell ;;
  lift (Py.mul_int_float raw LSB_VOLTAGE).

Definition capacity : M Bus float :=
  me <- get_self ;;
  if self_is_r_type me then
    raw <- read_uint16 REG_RepCap ;;
    lift (Py.mul_int_float raw LSB_CAPACITY_R)
  else
    raw <- read_uint16 REG_RepCap ;;
    lift (Py.mul_int_float raw LSB_CAPACITY_H).

Definition temperature : M Bus float :=
  raw <- read_int16 REG_DieTemp ;;
  lift (Py.mul_int_float raw LSB_TEMPERATURE).

End Driver.

(** ** Names for the parts of [__init__] and of the scale-factor table *)

Section Parts.

Context {Bus : Type} {I2C_Bus : I2C Bus}.

(** The loop of lines 65-66: wait while "data not ready" is set. *)
Definition poll_FStat (fuel : nat) : M Bus unit :=
  while_ fuel
    (v <- read_uint16 REG_FStat ;; ret (Py.truthy (Z.land v 0x0001)))
    (sleep_ms 10).

(** The loop of lines 87-88: wait while the reset bit is set. *)
Definition poll_ModelCfg (fuel : nat) : M Bus unit :=
  while_ fuel
    (v <- read_uint16 REG_ModelCfg ;; ret (Py.truthy (Z.land v 0x8000)))
    (sleep_ms 10).

(** Lines 68-88: what [__init__] does once the first loop has ended. *)
Definition after_ready (fuel : nat) (capacity terminationCurrent : Py.number)
  (lowVoltage is_r_type : bool) : M Bus unit :=
  cc <- (if is_r_type then
           cap <- int_div capacity LSB_CAPACITY_R ;;
           cur <- int_div terminationCurrent LSB_CURRENT_R ;;
           ret (cap, cur)
         else
           cap <- int_div capacity LSB_CAPACITY_H ;;
           cur <- int_div terminationCurrent LSB_CURRENT_H ;;
           ret (cap, cur)) ;;
  me <- get_self ;;
  buf <- lift (Struct.pack "<H" (fst cc)) ;;
  i2c_writeto_mem (self_i2c me) (self_address me) REG_DesignCap buf ;;
  me <- get_self ;;
  buf <- lift (Struct.pack "<h" (snd cc)) ;;
  i2c_writeto_mem (self_i2c me) (self_address me) REG_IChgTerm buf ;;
  (if lowVoltage then
     me <- get_self ;;
     i2c_writeto_mem (self_i2c me) (self_address me) REG_ModelCfg [x00; x80]
   else
     me <- get_self ;;
     i2c_writeto_mem (self_i2c me) (self_address me) REG_ModelCfg [x00; x84]) ;;
  poll_ModelCfg fuel.

(** The object as [__init__] leaves it. *)
Definition constructed (i2c : handle) (address : Z) (is_r_type : bool)
  (s : state Bus) : state Bus :=
  mkState (mkMAX17262 i2c address is_r_type) (bus s).

End Parts.

(** The outcome of a pure computation. *)
Definition of_result {A : Type} (r : result A) : outcome A :=
  match r with
  | Ok a => Returned a
  | Err e => Raised e
  end.

(** The integer a register read stands for: [unpack(fmt, data)[0]]. *)
Definition decode (fmt : string) (res : result (list byte)) : result Z :=
  rbind res (fun data =>
    rbind (Struct.unpack fmt data) (fun t => Py.getitem t 0)).

(** The reads of register [reg] among some events. *)
Definition read_of (reg : Z) (ev : event) : list (result (list byte)) :=
  match ev with
  | ReadFromMem _ _ mem_addr _ res => if mem_addr =? reg then [res] else []
  | _ => []
  end.

Definition reads (reg : Z) (evs : list event) : list (result (list byte)) :=
  flat_map (read_of reg) evs.

(** A run after some earlier events. *)
Definition prepend {Bus A : Type} (l : list event) (r : run Bus A) : run Bus A :=
  mkRun (out r) (st r) (l ++ evs r).

(** One register read: the run of [read_uint16] and [read_int16]. *)
Definition read16_run {Bus : Type} {I2C_Bus : I2C Bus}
  (fmt : string) (mem_addr : Z) (s : state Bus) : run Bus Z :=
  let rd := readfrom_mem (bus s) (self_i2c (self s)) (self_address (self s)) mem_addr 2 in
  mkRun (of_result (decode fmt (fst rd)))
        (mkState (self s) (snd rd))
        [ReadFromMem (self_i2c (self s)) (self_address (self s)) mem_addr 2 (fst rd)].

(** A polling loop of [__init__]: wait while [mask] is set in register [reg]. *)
Definition poll {Bus : Type} {I2C_Bus : I2C Bus} (reg mask : Z) (fuel : nat)
  : M Bus unit :=
  while_ fuel
    (v <- read_uint16 reg ;; ret (Py.truthy (Z.land v mask)))
    (sleep_ms 10).

(** The value [__init__] computes for a register: [int(x / lsb)]. *)
Definition raw_units (x : Py.number) (lsb : float) : result Z :=
  rbind (Py.truediv x lsb) Py.int.

Definition LSB_CAPACITY (is_r_type : bool) : float :=
  if is_r_type then LSB_CAPACITY_R else LSB_CAPACITY_H.

Definition LSB_CURRENT (is_r_type : bool) : float :=
  if is_r_type then LSB_CURRENT_R else LSB_CURRENT_H.

(** The bytes [__init__] writes to the model-configuration register. *)
Definition model_cfg_bytes (lowVoltage : bool) : list byte :=
  if lowVoltage then [x00; x80] else [x00; x84].

(** The writes to the model-configuration register among some writes. *)
Definition model_cfg_writes (ws : list (Z * Z * list byte)) : list (Z * Z * list byte) :=
  filter (fun w => snd (fst w) =? REG_ModelCfg) ws.

(** The quantities of the scale-factor table. *)
Inductive quantity : Type :=
| StateOfCharge
| TimeToEmpty
| TimeToFull
| Current
| Voltage
| RemainingCapacity
| DieTemperature.

(** The scale-factor table, column by column, as the specification gives it. *)
Definition table_register (q : quantity) : Z :=
  match q with
  | StateOfCharge => 0x06
  | TimeToEmpty => 0x11
  | TimeToFull => 0x20
  | Current => 0x0A
  | Voltage => 0x09
  | RemainingCapacity => 0x05
  | DieTemperature => 0x34
  end.

Definition table_signed (q : quantity) : bool :=
  match q with
  | Current | DieTemperature => true
  | _ => false
  end.

Definition table_factor (q : quantity) (is_r_type : bool) : float :=
  match q with
  | StateOfCharge => (1 / 256)%float
  | TimeToEmpty => 5.625%float
  | TimeToFull => 5.625%float
  | Current => if is_r_type then 156.25%float else 52.083%float
  | Voltage => (1.25 / 16)%float
  | RemainingCapacity => if is_r_type then 0.5%float else 0.1667%float
  | DieTemperature => (1 / 256)%float
  end.

Definition table_format (q : quantity) : string :=
  if table_signed q then "<h" else "<H".

(** The accessor of the driver for each quantity. *)
Definition accessor {Bus : Type} {I2C_Bus : I2C Bus} (q : quantity) : M Bus float :=
  match q with
  | StateOfCharge => state_of_charge
  | TimeToEmpty => time_to_empty
  | TimeToFull => time_to_full
  | Current => current
  | Voltage => voltage
  | RemainingCapacity => capacity
  | DieTemperature => temperature
  end.

(** ** Simulated devices, for concrete runs *)

(** A gauge that answers "data not ready" to the first [busy] reads of the
    flag-status register, keeps what is written to it, and ends a model
    refresh at once (it stores the model configuration with bit 15 clear). *)
Record gauge : Type := mkGauge {
  busy : nat;
  regs : list (Z * list byte)
}.

Fixpoint lookup (mem_addr : Z) (rs : list (Z * list byte)) : list byte :=
  match rs with
  | [] => [x00; x00]
  | (a, d) :: rs' => if a =? mem_addr then d else lookup mem_addr rs'
  end.

Definition gauge_read (g : gauge) (i2c : handle) (addr mem_addr nbytes : Z)
  : result (list byte) * gauge :=
  if mem_addr =? REG_FStat then
    match busy g with
    | S n => (Ok [x01; x00], mkGauge n (regs g))
    | O => (Ok (lookup mem_addr (regs g)), g)
    end
  else (Ok (lookup mem_addr (regs g)), g).

Definition clear_bit15 (buf : list byte) : list byte :=
  match buf with
  | [b0; b1] => [b0; Struct.byte_of_Z (Z.land (Struct.Z_of_byte b1) 0x7F)]
  | _ => buf
  end.

Definition gauge_write (g : gauge) (i2c : handle) (addr mem_addr : Z)
  (buf : list byte) : result unit * gauge :=
  if mem_addr =? REG_ModelCfg then
    (Ok tt, mkGauge (busy g) ((mem_addr, clear_bit15 buf) :: regs g))
  else (Ok tt, mkGauge (busy g) ((mem_addr, buf) :: regs g)).

#[global] Instance gauge_I2C : I2C gauge := {
  readfrom_mem := gauge_read;
  writeto_mem := gauge_write
}.

(** A device whose every register reads 0x0001 for ever. *)
Inductive stuck : Type := Stuck.

#[global] Instance stuck_I2C : I2C stuck := {
  readfrom_mem := fun b _ _ _ _ => (Ok [x01; x00], b);
  writeto_mem := fun b _ _ _ _ => (Ok tt, b)
}.

(** The driver object before [__init__] has run, on a given outside world. *)
Definition blank {Bus : Type} (b : Bus) : state Bus :=
  mkState (mkMAX17262 0%nat 0 false) b.

(** An H-type driver on a gauge whose registers hold: state of charge 25600,
    die temperature -400, current -2. *)
Definition sample_readings : state gauge :=
  mkState (mkMAX17262 2%nat DEVICE_ADDRESS false)
          (mkGauge 0 [(0x06, [x00; x64]); (0x34, [x70; xfe]); (0x0A, [xfe; xff])]).

(** The construction of the example script, [MAX17262(I2C(2), 340, 50000)],
    and variants of it, on a gauge that is ready after [busy] polls. *)
Definition example_init (busy : nat) (terminationCurrent : Z) : run gauge unit :=
  __init__ 5 2%nat (Py.Int 340) (Py.Int terminationCurrent) true DEVICE_ADDRESS true
    (blank (mkGauge busy [])).

(** [MAX17262(I2C(2), capacity, terminationCurrent)] on a gauge that is ready
    at once, for any two integers. *)
Definition unchecked_init (capacity terminationCurrent : Z) : run gauge unit :=
  __init__ 5 2%nat (Py.Int capacity) (Py.Int terminationCurrent) true DEVICE_ADDRESS true
    (blank (mkGauge 0 [])).

(** The same construction on the device that is never ready. *)
Definition stuck_init (fuel : nat) : run stuck unit :=
  __init__ fuel 2%nat (Py.Int 340) (Py.Int 50000) true DEVICE_ADDRESS true
    (blank Stuck).

(** ** Further vocabulary for runs *)

(** The error a bus call ended with, if it did. *)
Definition event_error (ev : event) : option exn :=
  match ev with
  | ReadFromMem _ _ _ _ (Err e) => Some e
  | WriteToMem _ _ _ _ (Err e) => Some e
  | _ => None
  end.

(** The exception a bus call makes the driver raise, if it does: the one the
    call itself raised, or [ValueError] from [unpack] when a read answered with
    fewer than two bytes. *)
Definition event_raises (ev : event) : option exn :=
  match ev with
  | ReadFromMem _ _ _ _ (Ok data) =>
      if (List.length data <? 2)%nat then Some ValueError else None
  | ReadFromMem _ _ _ _ (Err e) => Some e
  | WriteToMem _ _ _ _ (Err e) => Some e
  | _ => None
  end.

(** The bus traffic and the pauses [__init__] may produce on bus [i2c] for the
    device at [address]: 2-byte reads of the flag-status and
    model-configuration registers, 2-byte writes of the design-capacity,
    termination-current and model-configuration registers, pauses of 10 ms. *)
Definition init_event_ok (i2c : handle) (address : Z) (ev : event) : bool :=
  match ev with
  | ReadFromMem h a reg n _ =>
      Nat.eqb h i2c && (a =? address) && (n =? 2) &&
      ((reg =? REG_FStat) || (reg =? REG_ModelCfg))
  | WriteToMem h a reg buf _ =>
      Nat.eqb h i2c && (a =? address) && Nat.eqb (List.length buf) 2 &&
      ((reg =? REG_DesignCap) || (reg =? REG_IChgTerm) || (reg =? REG_ModelCfg))
  | SleepMs ms => ms =? 10
  end.

(** The time slept, in ms. *)
Definition sleep_of (ev : event) : Z :=
  match ev with
  | SleepMs ms => ms
  | _ => 0
  end.

Definition sleep_total (evs : list event) : Z :=
  fold_right (fun ev acc => sleep_of ev + acc) 0 evs.

(** A read of register [reg] that found a bit of [mask] set. *)
Definition busy_read (reg mask : Z) (ev : event) : bool :=
  match ev with
  | ReadFromMem _ _ mem_addr _ res =>
      (mem_addr =? reg) &&
      match decode "<H" res with
      | Ok v => Py.truthy (Z.land v mask)
      | Err _ => false
      end
  | _ => false
  end.

Definition busy_reads (reg mask : Z) (evs : list event) : nat :=
  List.length (filter (busy_read reg mask) evs).

(** The registers written, in order. *)
Definition written_registers (evs : list event) : list Z :=
  map (fun w => snd (fst w)) (writes evs).

(** A run keeps the invariant [I] of the state, produces only events that
    satisfy [P] and returns only values that satisfy [Q]. *)
Definition triple {Bus A : Type} (I : state Bus -> Prop) (P : event -> Prop)
  (m : M Bus A) (Q : A -> Prop) : Prop :=
  forall s, I s ->
    I (st (m s)) /\ Forall P (evs (m s)) /\
    forall a, out (m s) = Returned a -> Q a.

(** The object [__init__] has set up, and the events it may produce. *)
Definition configured {Bus : Type} (i2c : handle) (address : Z) (is_r_type : bool)
  (s : state Bus) : Prop :=
  self s = mkMAX17262 i2c address is_r_type.

Definition allowed (i2c : handle) (address : Z) (ev : event) : Prop :=
  init_event_ok i2c address ev = true.

(** A run stops at the first bus call that raises, with that exception. *)
Definition fail_stop {Bus A : Type} (r : run Bus A) : Prop :=
  forall pre ev post e,
    evs r = pre ++ ev :: post -> event_error ev = Some e ->
    post = [] /\ out r = Raised e.

(** ** The example script (max17262_battery.py) *)

Definition your_capacity : Z := 340.
Definition your_termination_current : Z := 50000.

(** [battery = MAX17262(I2C(2), your_capacity, your_termination_current)],
    with the default values of the other parameters. *)
Definition battery {Bus : Type} {I2C_Bus : I2C Bus} (fuel : nat) : M Bus unit :=
  __init__ fuel 2%nat (Py.Int your_capacity) (Py.Int your_termination_current)
    true DEVICE_ADDRESS true.

(** A register file with no behaviour of its own: a read returns what was last
    written (zero before any write). *)
Record regfile : Type := mkRegfile {
  cells : list (Z * list byte)
}.

#[global] Instance regfile_I2C : I2C regfile := {
  readfrom_mem := fun b _ _ mem_addr _ => (Ok (lookup mem_addr (cells b)), b);
  writeto_mem := fun b _ _ mem_addr buf => (Ok tt, mkRegfile ((mem_addr, buf) :: cells b))
}.

(** A bus with no device on it: every call raises [OSError(19)]. *)
Inductive absent : Type := Absent.

#[global] Instance absent_I2C : I2C absent := {
  readfrom_mem := fun b _ _ _ _ => (Err (OSError 19), b);
  writeto_mem := fun b _ _ _ _ => (Err (OSError 19), b)
}.

(** * Properties *)

(** ** The little-endian codec *)

Lemma Z_of_byte_range (b : byte) : 0 <= Struct.Z_of_byte b < 256.
Proof.
  unfold Struct.Z_of_byte.
  pose proof (Byte.to_N_bounded b) as Hb.
  lia.
Qed.

Lemma Z_of_byte_of_Z (z : Z) : Struct.Z_of_byte (Struct.byte_of_Z z) = z mod 256.
Proof.
  unfold Struct.Z_of_byte, Struct.byte_of_Z.
  assert (Hr : 0 <= z mod 256 < 256) by (apply Z.mod_pos_bound; lia).
  destruct (Byte.of_N (Z.to_N (z mod 256))) as [b|] eqn:E.
  - apply Byte.to_of_N in E. rewrite E. lia.
  - apply Byte.of_N_None_iff in E. lia.
Qed.

(** The word two bytes stand for, least significant byte first. *)
Lemma le_word_bits (a b w : Z) :
  0 <= a < 256 -> 0 <= b < 256 -> w = Z.lor a (Z.shiftl b 8) ->
  w = a + 256 * b.
Proof.
  intros Ha Hb ->.
  rewrite Z.shiftl_mul_pow2 by lia.
  rewrite <- Z.lxor_lor, <- Z.add_nocarry_lxor; try lia.
  all: apply Z.bits_inj'; intros n Hn;
    rewrite Z.land_spec, Z.bits_0;
    destruct (Z.ltb_spec n 8) as [Hlt|Hge].
  all: try (rewrite Z.mul_pow2_bits_low by lia; apply andb_false_r).
  all: replace a with (a mod 2 ^ 8) by (apply Z.mod_small; lia);
    rewrite Z.mod_pow2_bits_high by lia; reflexivity.
Qed.

Lemma le16_word (w : Z) :
  0 <= w < 65536 ->
  Struct.Z_of_byte (Struct.byte_of_Z w)
  + 256 * Struct.Z_of_byte (Struct.byte_of_Z (Z.shiftr w 8)) = w.
Proof.
  intros Hw.
  rewrite !Z_of_byte_of_Z, Z.shiftr_div_pow2 by lia.
  change (2 ^ 8) with 256.
  rewrite (Z.mod_small (w / 256)).
  - pose proof (Z.div_mod w 256). lia.
  - split; [apply Z.div_pos; lia | apply Z.div_lt_upper_bound; lia].
Qed.

Lemma unpack_le16 (fmt : string) (w : Z) :
  0 <= w < 65536 ->
  Struct.unpack fmt (Struct.le16 w) =
  if String.eqb fmt "<H" then Ok [w]
  else if String.eqb fmt "<h" then Ok [if w <? 32768 then w else w - 65536]
  else Err ValueError.
Proof.
  intros Hw. unfold Struct.unpack, Struct.le16.
  rewrite (le_word_bits _ _ _ (Z_of_byte_range _) (Z_of_byte_range _) eq_refl).
  rewrite le16_word by exact Hw.
  reflexivity.
Qed.

(** [pack] takes any integer and keeps its low 16 bits. *)
Lemma pack_H (v : Z) : Struct.pack "<H" v = Ok (Struct.le16 (v mod 65536)).
Proof. reflexivity. Qed.

Lemma pack_h (v : Z) : Struct.pack "<h" v = Ok (Struct.le16 (v mod 65536)).
Proof. reflexivity. Qed.

Lemma pack_H_Ok (v : Z) : 0 <= v <= 65535 -> Struct.pack "<H" v = Ok (Struct.le16 v).
Proof. intros Hv. rewrite pack_H, Z.mod_small by lia. reflexivity. Qed.

Lemma le16_mod (v : Z) : Struct.le16 (v mod 65536) = Struct.le16 v.
Proof.
  unfold Struct.le16, Struct.byte_of_Z.
  rewrite !Z.shiftr_div_pow2 by lia. change (2 ^ 8) with 256.
  assert (H0 : (v mod 65536) mod 256 = v mod 256).
  { pose proof (Z.div_mod v 65536). pose proof (Z.mod_pos_bound v 65536).
    replace (v mod 65536) with (v + (- (v / 65536) * 256) * 256) by lia.
    apply Z.mod_add. lia. }
  assert (H1 : (v mod 65536 / 256) mod 256 = (v / 256) mod 256).
  { replace (v mod 65536) with (v + (- (v / 65536) * 256) * 256)
      by (pose proof (Z.div_mod v 65536); lia).
    rewrite Z.div_add by lia. apply Z.mod_add. lia. }
  rewrite H0, H1. reflexivity.
Qed.

Lemma unpack_pack_H (v : Z) :
  0 <= v <= 65535 ->
  rbind (Struct.pack "<H" v) (Struct.unpack "<H") = Ok [v].
Proof.
  intros Hv. rewrite pack_H_Ok by exact Hv.
  cbn [rbind]. rewrite unpack_le16 by lia. reflexivity.
Qed.

Lemma unpack_pack_h (v : Z) :
  -32768 <= v <= 32767 ->
  rbind (Struct.pack "<h" v) (Struct.unpack "<h") = Ok [v].
Proof.
  intros Hv. rewrite pack_h. cbn [rbind].
  assert (Hm : 0 <= v mod 65536 < 65536) by (apply Z.mod_pos_bound; lia).
  rewrite unpack_le16 by lia.
  change (String.eqb "<h" "<H") with false.
  change (String.eqb "<h" "<h") with true.
  cbv iota. f_equal. f_equal.
  pose proof (Z.div_mod v 65536) as Hdm.
  destruct (Z.ltb_spec (v mod 65536) 32768); lia.
Qed.

(** What [unpack] returns is a 16-bit value of the format's range. *)
Lemma unpack_range (fmt : string) (data : list byte) (t : list Z) :
  Struct.unpack fmt data = Ok t ->
  exists v, t = [v] /\
    (fmt = "<H"%string /\ 0 <= v <= 65535 \/
     fmt = "<h"%string /\ -32768 <= v <= 32767).
Proof.
  unfold Struct.unpack.
  destruct data as [|b0 [|b1 rest]]; try discriminate.
  pose proof (Z_of_byte_range b0) as H0.
  pose proof (Z_of_byte_range b1) as H1.
  rewrite (le_word_bits _ _ _ H0 H1 eq_refl).
  assert (Hw : 0 <= Struct.Z_of_byte b0 + 256 * Struct.Z_of_byte b1 <= 65535) by lia.
  revert Hw. generalize (Struct.Z_of_byte b0 + 256 * Struct.Z_of_byte b1).
  intros w Hw. cbv zeta.
  destruct (String.eqb_spec fmt "<H") as [->|_].
  - intros [= <-]. exists w. split; [reflexivity|]. left. split; [reflexivity|lia].
  - destruct (String.eqb_spec fmt "<h") as [->|_]; [|discriminate].
    intros [= <-]. eexists; split; [reflexivity|]. right. split; [reflexivity|].
    destruct (Z.ltb_spec w 32768); lia.
Qed.

Lemma unpack_short (fmt : string) (data : list byte) :
  (List.length data < 2)%nat -> Struct.unpack fmt data = Err ValueError.
Proof.
  destruct data as [|b0 [|b1 rest]]; cbn [List.length]; intros H;
    try reflexivity; lia.
Qed.

Lemma unpack_H_word (b0 b1 : byte) (rest : list byte) :
  Struct.unpack "<H" (b0 :: b1 :: rest)
  = Ok [Struct.Z_of_byte b0 + 256 * Struct.Z_of_byte b1].
Proof.
  unfold Struct.unpack.
  rewrite (le_word_bits _ _ _ (Z_of_byte_range b0) (Z_of_byte_range b1) eq_refl).
  reflexivity.
Qed.

Lemma unpack_h_word (b0 b1 : byte) (rest : list byte) :
  Struct.unpack "<h" (b0 :: b1 :: rest)
  = Ok [let w := Struct.Z_of_byte b0 + 256 * Struct.Z_of_byte b1 in
        if w <? 32768 then w else w - 65536].
Proof.
  unfold Struct.unpack.
  rewrite (le_word_bits _ _ _ (Z_of_byte_range b0) (Z_of_byte_range b1) eq_refl).
  reflexivity.
Qed.

(** What the bytes [pack] stores stand for when they are read back. *)
Lemma decode_le16_H (v : Z) :
  rbind (Struct.unpack "<H" (Struct.le16 (v mod 65536))) (fun t => Py.getitem t 0)
  = Ok (v mod 65536).
Proof.
  rewrite unpack_le16 by (apply Z.mod_pos_bound; lia). reflexivity.
Qed.

Lemma decode_le16_h (v : Z) :
  rbind (Struct.unpack "<h" (Struct.le16 (v mod 65536))) (fun t => Py.getitem t 0)
  = Ok ((v + 32768) mod 65536 - 32768).
Proof.
  pose proof (Z.mod_pos_bound v 65536 ltac:(lia)) as Hm.
  rewrite unpack_le16 by exact Hm.
  change (String.eqb "<h" "<H") with false.
  change (String.eqb "<h" "<h") with true.
  cbn [rbind Py.getitem nth_error]. f_equal.
  pose proof (Z.div_mod v 65536 ltac:(lia)) as Hv.
  pose proof (Z.div_mod (v + 32768) 65536 ltac:(lia)) as Hs.
  pose proof (Z.mod_pos_bound (v + 32768) 65536 ltac:(lia)) as Hsm.
  destruct (Z.ltb_spec (v mod 65536) 32768); lia.
Qed.

(** ** Floats of integers

    [float(z)] is exact below [2 ^ 53]: it does not overflow and [int] gives
    [z] back. *)

Lemma iter_xO_digits (p n : positive) :
  digits2_pos (Pos.iter xO p n) = (digits2_pos p + n)%positive.
Proof.
  induction n as [|n IH] using Pos.peano_ind.
  - cbn. apply eq_sym, Pos.add_1_r.
  - rewrite Pos.iter_succ. cbn [digits2_pos]. rewrite IH. apply eq_sym, Pos.add_succ_r.
Qed.

Lemma iter_xO_value (p n : positive) :
  Z.pos (Pos.iter xO p n) = Z.pos p * 2 ^ Z.pos n.
Proof.
  induction n as [|n IH] using Pos.peano_ind.
  - cbn. lia.
  - rewrite Pos.iter_succ, Pos2Z.inj_xO, IH, Pos2Z.inj_succ, Z.pow_succ_r by lia. ring.
Qed.

Lemma digits2_pos_bound (p : positive) :
  2 ^ (Z.pos (digits2_pos p) - 1) <= Z.pos p.
Proof.
  induction p as [p IH|p IH|]; cbn [digits2_pos]; [| |cbn; lia].
  all: rewrite Pos2Z.inj_succ; replace (Z.succ (Z.pos (digits2_pos p)) - 1)
         with (Z.succ (Z.pos (digits2_pos p) - 1)) by lia;
       rewrite Z.pow_succ_r by lia; lia.
Qed.

Lemma digits2_pos_small (p : positive) (n : Z) :
  0 <= n -> Z.pos p < 2 ^ n -> Z.pos (digits2_pos p) <= n.
Proof.
  intros Hn Hp. pose proof (digits2_pos_bound p) as Hb.
  destruct (Z_le_gt_dec (Z.pos (digits2_pos p)) n) as [|Hgt]; [assumption|].
  assert (2 ^ n <= 2 ^ (Z.pos (digits2_pos p) - 1)) by (apply Z.pow_le_mono_r; lia).
  lia.
Qed.

Lemma binary_round_small (s : bool) (p : positive) :
  Z.pos p < 2 ^ 53 ->
  exists m e,
    binary_round prec emax s p 0 = S754_finite s m e /\
    valid_binary (S754_finite s m e) = true /\
    e <= 0 /\ Z.pos m = Z.pos p * 2 ^ (- e).
Proof.
  intros Hp.
  pose proof (digits2_pos_small p 53 ltac:(lia) Hp) as Hd.
  set (d := digits2_pos p) in *.
  assert (Hfexp : forall e, -52 <= e <= 0 -> fexp prec emax (53 + e) = e).
  { intros e He. unfold fexp, emin, prec, emax. lia. }
  assert (Haux : forall m e, digits2_pos m = 53%positive -> -52 <= e <= 0 ->
            binary_round_aux prec emax s (Z.pos m) e loc_Exact = S754_finite s m e).
  { intros m e Hm He. unfold binary_round_aux, shr_fexp.
    cbn [Zdigits2 shr_record_of_loc]. rewrite Hm, (Hfexp e He), Z.sub_diag.
    cbn [shr shr_m loc_of_shr_record round_nearest_even Zdigits2 shr_record_of_loc].
    rewrite Hm, (Hfexp e He), Z.sub_diag. cbn [shr shr_m].
    destruct (Z.leb_spec e (emax - prec)) as [|Hgt]; [reflexivity|].
    unfold emax, prec in Hgt. lia. }
  assert (Hvalid : forall m e, digits2_pos m = 53%positive -> -52 <= e <= 0 ->
            valid_binary (S754_finite s m e) = true).
  { intros m e Hm He. unfold SpecFloat.valid_binary, bounded, canonical_mantissa.
    rewrite Hm, (Hfexp e He), Z.eqb_refl. cbn [andb].
    apply Z.leb_le. unfold emax, prec. lia. }
  unfold binary_round, shl_align. fold d.
  replace (fexp prec emax (Z.pos d + 0)) with (Z.pos d - 53)
    by (unfold fexp, emin, prec, emax; lia).
  rewrite Z.sub_0_r.
  destruct (Z.pos d - 53) as [|q|q] eqn:Eq; [| lia |].
  - assert (Hd53 : d = 53%positive) by lia.
    exists p, 0. rewrite (Haux p 0 Hd53) by lia.
    repeat split; try lia. apply Hvalid; [exact Hd53 | lia].
  - assert (Hm : digits2_pos (Pos.iter xO p q) = 53%positive).
    { rewrite iter_xO_digits. fold d. lia. }
    exists (Pos.iter xO p q), (Z.neg q). rewrite (Haux _ _ Hm) by lia.
    repeat split; try lia.
    + apply Hvalid; [exact Hm | lia].
    + rewrite iter_xO_value. reflexivity.
Qed.

Lemma float_of_int_exact (z : Z) :
  Z.abs z < 2 ^ 53 ->
  exists x, Py.float_of_int z = Ok x /\ Py.int x = Ok z.
Proof.
  intros Hz. unfold Py.float_of_int.
  destruct z as [|p|p]; [exists 0%float; split; reflexivity | |].
  all: cbn [binary_normalize];
    match goal with |- context [binary_round _ _ ?s _ _] =>
      destruct (binary_round_small s p Hz) as (m & e & -> & Hv & He & Hm) end.
  all: pose proof (Prim2SF_SF2Prim _ Hv) as Hrt.
  all: set (x := SF2Prim (S754_finite _ m e)) in *; cbv zeta.
  all: assert (Hinf : PrimFloat.is_infinity x = false)
    by (unfold PrimFloat.is_infinity; rewrite FloatAxioms.eqb_spec, FloatAxioms.abs_spec, Hrt; reflexivity).
  all: rewrite Hinf; exists x; split; [reflexivity|].
  all: unfold Py.int; rewrite Hrt; cbv zeta; f_equal.
  all: destruct (Z.leb_spec 0 e) as [He0|He0].
  all: try (replace e with 0 in * by lia; cbn in Hm; lia).
  - rewrite Hm. apply Z.quot_mul. apply Z.pow_nonzero; lia.
  - change (Z.neg m) with (- Z.pos m). rewrite Hm, <- Z.mul_opp_l.
    change (- Z.pos p) with (Z.neg p). apply Z.quot_mul. apply Z.pow_nonzero; lia.
Qed.

Lemma float_of_int_16bit (z : Z) :
  -32768 <= z <= 65535 ->
  exists x, Py.float_of_int z = Ok x /\ Py.int x = Ok z.
Proof.
  intros Hz. apply float_of_int_exact.
  change (2 ^ 53) with 9007199254740992. lia.
Qed.

(** ** Runs of the methods *)

Section Runs.

Context {Bus : Type} {I2C_Bus : I2C Bus}.

Lemma writes_app (l1 l2 : list event) : writes (l1 ++ l2) = writes l1 ++ writes l2.
Proof. apply flat_map_app. Qed.

Lemma writes_cons (ev : event) (l : list event) :
  writes (ev :: l) = write_of ev ++ writes l.
Proof. reflexivity. Qed.

Lemma read_uint16_run (mem_addr : Z) (s : state Bus) :
  read_uint16 mem_addr s = read16_run "<H" mem_addr s.
Proof.
  unfold read_uint16, read16_run, bind, get_self, i2c_readfrom_mem, lift, decode.
  cbn [out st evs].
  destruct (readfrom_mem (bus s) (self_i2c (self s)) (self_address (self s)) mem_addr 2)
    as [[data|e] b]; cbn [out st evs fst snd rbind of_result app]; [|reflexivity].
  destruct (Struct.unpack "<H" data) as [t|e]; cbn [out st evs rbind of_result app];
    [|reflexivity].
  destruct (Py.getitem t 0); reflexivity.
Qed.

Lemma read_int16_run (mem_addr : Z) (s : state Bus) :
  read_int16 mem_addr s = read16_run "<h" mem_addr s.
Proof.
  unfold read_int16, read16_run, bind, get_self, i2c_readfrom_mem, lift, decode.
  cbn [out st evs].
  destruct (readfrom_mem (bus s) (self_i2c (self s)) (self_address (self s)) mem_addr 2)
    as [[data|e] b]; cbn [out st evs fst snd rbind of_result app]; [|reflexivity].
  destruct (Struct.unpack "<h" data) as [t|e]; cbn [out st evs rbind of_result app];
    [|reflexivity].
  destruct (Py.getitem t 0); reflexivity.
Qed.

Lemma decode_Ok (fmt : string) (res : result (list byte)) (v : Z) :
  decode fmt res = Ok v ->
  exists data, res = Ok data /\ Struct.unpack fmt data = Ok [v].
Proof.
  unfold decode. destruct res as [data|e]; cbn [rbind]; [|discriminate].
  destruct (Struct.unpack fmt data) as [t|e] eqn:Eu; cbn [rbind]; [|discriminate].
  destruct (unpack_range _ _ _ Eu) as (w & -> & _).
  cbn. intros [= ->]. exists data. split; [reflexivity | exact Eu].
Qed.

Lemma poll_O (reg mask : Z) (s : state Bus) :
  poll reg mask 0 s = mkRun OutOfFuel s [].
Proof. reflexivity. Qed.

(** One turn of a polling loop. *)
Lemma poll_S (reg mask : Z) (fuel : nat) (s : state Bus) :
  poll reg mask (S fuel) s =
  let r1 := read16_run "<H" reg s in
  match decode "<H" (fst (readfrom_mem (bus s) (self_i2c (self s))
                                       (self_address (self s)) reg 2)) with
  | Ok v =>
      if Py.truthy (Z.land v mask) then
        let r2 := poll reg mask fuel (st r1) in
        mkRun (out r2) (st r2) (evs r1 ++ SleepMs 10 :: evs r2)
      else mkRun (Returned tt) (st r1) (evs r1)
  | Err e => mkRun (Raised e) (st r1) (evs r1)
  end.
Proof.
  unfold poll. cbn [while_]. unfold bind, ret, sleep_ms.
  rewrite read_uint16_run. unfold read16_run.
  destruct (readfrom_mem (bus s) (self_i2c (self s)) (self_address (self s)) reg 2)
    as [res b].
  cbn [fst snd out st evs].
  destruct (decode "<H" res) as [v|e]; cbn [of_result out st evs]; [|reflexivity].
  destruct (Py.truthy (Z.land v mask)); cbn [out st evs app];
    rewrite ?app_nil_r; reflexivity.
Qed.

(** A polling loop keeps the driver object, writes nothing, and returns only
    after a read that found the bits of [mask] clear. *)
Lemma poll_inv (reg mask : Z) (fuel : nat) :
  forall s : state Bus,
    let r := poll reg mask fuel s in
    self (st r) = self s /\
    writes (evs r) = [] /\
    (out r = Returned tt ->
     exists data v,
       In (ReadFromMem (self_i2c (self s)) (self_address (self s)) reg 2 (Ok data))
          (evs r) /\
       decode "<H" (Ok data) = Ok v /\ Z.land v mask = 0).
Proof.
  induction fuel as [|fuel IH]; intros s.
  - rewrite poll_O. cbn. repeat split; try reflexivity. discriminate.
  - rewrite poll_S. cbv zeta.
    destruct (readfrom_mem (bus s) (self_i2c (self s)) (self_address (self s)) reg 2)
      as [res b] eqn:Erd.
    unfold read16_run. rewrite Erd. cbn [fst snd out st evs].
    destruct (decode "<H" res) as [v|e] eqn:Ed.
    + destruct (Py.truthy (Z.land v mask)) eqn:Et.
      * specialize (IH (mkState (self s) b)). cbv zeta in IH.
        destruct IH as (Hself & Hw & Hret). cbn [self] in Hself, Hret.
        cbn [out st evs]. repeat split.
        -- exact Hself.
        -- cbn [app writes flat_map write_of]. exact Hw.
        -- intros Hout. destruct (Hret Hout) as (data & w & Hin & Hd & Hm).
           exists data, w. repeat split; try assumption.
           right. right. exact Hin.
      * cbn [out st evs self]. repeat split.
        intros _. destruct (decode_Ok _ _ _ Ed) as (data & -> & Hu).
        exists data, v. repeat split.
        -- left. reflexivity.
        -- exact Ed.
        -- unfold Py.truthy in Et. apply negb_false_iff, Z.eqb_eq in Et. exact Et.
    + cbn [out st evs self]. repeat split. discriminate.
Qed.

(** A register read raises only through the bus call it makes. *)
Lemma read_raises (i2c : handle) (addr reg n : Z) (res : result (list byte)) (e : exn) :
  decode "<H" res = Err e -> event_raises (ReadFromMem i2c addr reg n res) = Some e.
Proof.
  unfold decode. destruct res as [data|e']; cbn [rbind event_raises].
  - destruct data as [|b0 [|b1 rest]].
    + intros [= <-]. reflexivity.
    + intros [= <-]. reflexivity.
    + rewrite unpack_H_word. cbn [rbind Py.getitem nth_error]. discriminate.
  - intros [= <-]. reflexivity.
Qed.

(** A polling loop that raises ends on the read that made it raise. *)
Lemma poll_raised (reg mask : Z) (fuel : nat) :
  forall (s : state Bus) (e : exn),
    out (poll reg mask fuel s) = Raised e ->
    exists pre ev,
      evs (poll reg mask fuel s) = pre ++ [ev] /\ event_raises ev = Some e.
Proof.
  induction fuel as [|fuel IH]; intros s e; [rewrite poll_O; discriminate|].
  rewrite poll_S. cbv zeta. unfold read16_run.
  destruct (readfrom_mem (bus s) (self_i2c (self s)) (self_address (self s)) reg 2)
    as [res b]. cbn [fst snd out st evs].
  destruct (decode "<H" res) as [v|e'] eqn:Ed.
  - destruct (Py.truthy (Z.land v mask)); cbn [out st evs]; [|discriminate].
    intros Hout. destruct (IH _ _ Hout) as (pre & ev & -> & Hev).
    exists (ReadFromMem (self_i2c (self s)) (self_address (self s)) reg 2 res
            :: SleepMs 10 :: pre), ev.
    split; [reflexivity | exact Hev].
  - cbn [out st evs]. intros [= <-].
    exists [], (ReadFromMem (self_i2c (self s)) (self_address (self s)) reg 2 res).
    split; [reflexivity | apply read_raises; exact Ed].
Qed.

(** *** [__init__] is the first loop, then lines 68-88 *)

Lemma init_out fuel i2c capacity terminationCurrent lowVoltage address is_r_type
  (s : state Bus) :
  out (__init__ fuel i2c capacity terminationCurrent lowVoltage address is_r_type s) =
  out ((poll_FStat fuel ;;
        after_ready fuel capacity terminationCurrent lowVoltage is_r_type)
         (constructed i2c address is_r_type s)).
Proof. reflexivity. Qed.

Lemma init_st fuel i2c capacity terminationCurrent lowVoltage address is_r_type
  (s : state Bus) :
  st (__init__ fuel i2c capacity terminationCurrent lowVoltage address is_r_type s) =
  st ((poll_FStat fuel ;;
       after_ready fuel capacity terminationCurrent lowVoltage is_r_type)
        (constructed i2c address is_r_type s)).
Proof. reflexivity. Qed.

Lemma init_evs fuel i2c capacity terminationCurrent lowVoltage address is_r_type
  (s : state Bus) :
  evs (__init__ fuel i2c capacity terminationCurrent lowVoltage address is_r_type s) =
  evs ((poll_FStat fuel ;;
        after_ready fuel capacity terminationCurrent lowVoltage is_r_type)
         (constructed i2c address is_r_type s)).
Proof. reflexivity. Qed.

(** *** Runs of the steps of [__init__] *)

Lemma out_prepend {A : Type} (l : list event) (r : run Bus A) :
  out (prepend l r) = out r.
Proof. reflexivity. Qed.

Lemma st_prepend {A : Type} (l : list event) (r : run Bus A) :
  st (prepend l r) = st r.
Proof. reflexivity. Qed.

Lemma evs_prepend {A : Type} (l : list event) (r : run Bus A) :
  evs (prepend l r) = l ++ evs r.
Proof. reflexivity. Qed.

Ltac run_simpl :=
  rewrite ?out_prepend, ?st_prepend, ?evs_prepend;
  cbn [out st evs self bus fst snd rbind of_result app
       self_i2c self_address self_is_r_type].

Lemma get_self_run (s : state Bus) :
  get_self s = mkRun (Returned (self s)) s [].
Proof. reflexivity. Qed.

Lemma bind_run {A C : Type} (m : M Bus A) (k : A -> M Bus C) (s : state Bus) :
  bind m k s =
  match out (m s) with
  | Returned a => prepend (evs (m s)) (k a (st (m s)))
  | Raised e => mkRun (Raised e) (st (m s)) (evs (m s))
  | OutOfFuel => mkRun OutOfFuel (st (m s)) (evs (m s))
  end.
Proof. reflexivity. Qed.

Lemma lift_run {A : Type} (r : result A) (s : state Bus) :
  lift r s = mkRun (of_result r) s [].
Proof. destruct r; reflexivity. Qed.

Lemma write_run (i2c : handle) (addr mem_addr : Z) (buf : list byte) (s : state Bus) :
  i2c_writeto_mem i2c addr mem_addr buf s =
  let w := writeto_mem (bus s) i2c addr mem_addr buf in
  mkRun (of_result (fst w)) (mkState (self s) (snd w))
        [WriteToMem i2c addr mem_addr buf (fst w)].
Proof.
  unfold i2c_writeto_mem.
  destruct (writeto_mem (bus s) i2c addr mem_addr buf) as [[[]|e] b]; reflexivity.
Qed.

Lemma int_div_run (x : Py.number) (lsb : float) (s : state Bus) :
  int_div x lsb s = mkRun (of_result (raw_units x lsb)) s [].
Proof.
  unfold int_div, raw_units. rewrite bind_run, lift_run. cbn [out st evs].
  destruct (Py.truediv x lsb) as [q|e]; cbn [of_result rbind]; [|reflexivity].
  rewrite lift_run. reflexivity.
Qed.

(** Lines 68-73: the two raw values. *)
Lemma scale_run (capacity terminationCurrent : Py.number) (is_r_type : bool)
  (s : state Bus) :
  (if is_r_type then
     cap <- int_div capacity LSB_CAPACITY_R ;;
     cur <- int_div terminationCurrent LSB_CURRENT_R ;;
     ret (cap, cur)
   else
     cap <- int_div capacity LSB_CAPACITY_H ;;
     cur <- int_div terminationCurrent LSB_CURRENT_H ;;
     ret (cap, cur)) s =
  mkRun (of_result
           (rbind (raw_units capacity (LSB_CAPACITY is_r_type)) (fun cap =>
            rbind (raw_units terminationCurrent (LSB_CURRENT is_r_type)) (fun cur =>
            Ok (cap, cur)))))
        s [].
Proof.
  destruct is_r_type; cbn [LSB_CAPACITY LSB_CURRENT].
  - rewrite bind_run, int_div_run. run_simpl.
    destruct (raw_units capacity LSB_CAPACITY_R) as [cap|e]; [|reflexivity].
    cbn [of_result]. rewrite bind_run, int_div_run. cbn [out st evs].
    destruct (raw_units terminationCurrent LSB_CURRENT_R) as [cur|e]; reflexivity.
  - rewrite bind_run, int_div_run. run_simpl.
    destruct (raw_units capacity LSB_CAPACITY_H) as [cap|e]; [|reflexivity].
    cbn [of_result]. rewrite bind_run, int_div_run. cbn [out st evs].
    destruct (raw_units terminationCurrent LSB_CURRENT_H) as [cur|e]; reflexivity.
Qed.

(** Lines 80-83: the write to the model-configuration register. *)
Lemma model_cfg_run (lowVoltage : bool) i2c address is_r_type (s : state Bus) :
  self s = mkMAX17262 i2c address is_r_type ->
  (if lowVoltage then
     me <- get_self ;;
     i2c_writeto_mem (self_i2c me) (self_address me) REG_ModelCfg [x00; x80]
   else
     me <- get_self ;;
     i2c_writeto_mem (self_i2c me) (self_address me) REG_ModelCfg [x00; x84]) s =
  let w := writeto_mem (bus s) i2c address REG_ModelCfg (model_cfg_bytes lowVoltage) in
  mkRun (of_result (fst w)) (mkState (self s) (snd w))
        [WriteToMem i2c address REG_ModelCfg (model_cfg_bytes lowVoltage) (fst w)].
Proof.
  intros Hself.
  destruct lowVoltage; cbn [model_cfg_bytes].
  all: rewrite bind_run, get_self_run; cbn [out st evs];
    rewrite write_run, Hself; reflexivity.
Qed.

(** *** Lines 68-88, case by case *)

Lemma after_ready_run fuel capacity terminationCurrent lowVoltage i2c address is_r_type
  (s : state Bus) :
  self s = mkMAX17262 i2c address is_r_type ->
  let r := after_ready fuel capacity terminationCurrent lowVoltage is_r_type s in
  match raw_units capacity (LSB_CAPACITY is_r_type) with
  | Err e => out r = Raised e /\ evs r = []
  | Ok cap =>
  match raw_units terminationCurrent (LSB_CURRENT is_r_type) with
  | Err e => out r = Raised e /\ evs r = []
  | Ok cur =>
  let b1 := Struct.le16 (cap mod 65536) in
  let b2 := Struct.le16 (cur mod 65536) in
  let w1 := writeto_mem (bus s) i2c address REG_DesignCap b1 in
  let e1 := WriteToMem i2c address REG_DesignCap b1 (fst w1) in
  match fst w1 with
  | Err e => out r = Raised e /\ evs r = [e1]
  | Ok _ =>
  let w2 := writeto_mem (snd w1) i2c address REG_IChgTerm b2 in
  let e2 := WriteToMem i2c address REG_IChgTerm b2 (fst w2) in
  match fst w2 with
  | Err e => out r = Raised e /\ evs r = [e1; e2]
  | Ok _ =>
  let w3 := writeto_mem (snd w2) i2c address REG_ModelCfg (model_cfg_bytes lowVoltage) in
  let e3 := WriteToMem i2c address REG_ModelCfg (model_cfg_bytes lowVoltage) (fst w3) in
  match fst w3 with
  | Err e => out r = Raised e /\ evs r = [e1; e2; e3]
  | Ok _ =>
      let p := poll_ModelCfg fuel (mkState (self s) (snd w3)) in
      out r = out p /\ evs r = e1 :: e2 :: e3 :: evs p
  end end end end end.
Proof.
  destruct s as [me b]. cbn [self bus]. intros ->. cbv zeta.
  unfold after_ready.
  rewrite bind_run, scale_run. run_simpl.
  destruct (raw_units capacity (LSB_CAPACITY is_r_type)) as [cap|e];
    run_simpl; [|split; reflexivity].
  destruct (raw_units terminationCurrent (LSB_CURRENT is_r_type)) as [cur|e];
    run_simpl; [|split; reflexivity].
  rewrite bind_run. rewrite get_self_run. run_simpl.
  rewrite bind_run, lift_run, pack_H. run_simpl.
  rewrite bind_run, write_run. run_simpl.
  destruct (writeto_mem b i2c address REG_DesignCap (Struct.le16 (cap mod 65536)))
    as [[[]|e] bs1]; run_simpl; [|split; reflexivity].
  rewrite bind_run. rewrite get_self_run. run_simpl.
  rewrite bind_run, lift_run, pack_h. run_simpl.
  rewrite bind_run, write_run. run_simpl.
  destruct (writeto_mem bs1 i2c address REG_IChgTerm (Struct.le16 (cur mod 65536)))
    as [[[]|e] bs2]; run_simpl; [|split; reflexivity].
  rewrite bind_run, (model_cfg_run _ i2c address is_r_type) by reflexivity. run_simpl.
  destruct (writeto_mem bs2 i2c address REG_ModelCfg (model_cfg_bytes lowVoltage))
    as [[[]|e] bs3]; run_simpl; split; reflexivity.
Qed.

(** *** The two loops *)

Lemma poll_FStat_inv (fuel : nat) (s : state Bus) :
  let r := poll_FStat fuel s in
  self (st r) = self s /\
  writes (evs r) = [] /\
  (out r = Returned tt ->
   exists data v,
     In (ReadFromMem (self_i2c (self s)) (self_address (self s)) REG_FStat 2 (Ok data))
        (evs r) /\
     decode "<H" (Ok data) = Ok v /\ Z.land v 1 = 0).
Proof. exact (poll_inv REG_FStat 1 fuel s). Qed.

Lemma poll_ModelCfg_inv (fuel : nat) (s : state Bus) :
  let r := poll_ModelCfg fuel s in
  self (st r) = self s /\ writes (evs r) = [].
Proof.
  destruct (poll_inv REG_ModelCfg 0x8000 fuel s) as (H1 & H2 & _).
  split; assumption.
Qed.

(** *** The whole of [__init__]: how it ends and what it writes *)

Lemma init_run fuel i2c capacity terminationCurrent lowVoltage address is_r_type
  (s : state Bus) :
  let r := __init__ fuel i2c capacity terminationCurrent lowVoltage address is_r_type s in
  let p := poll_FStat fuel (constructed i2c address is_r_type s) in
  let a := after_ready fuel capacity terminationCurrent lowVoltage is_r_type (st p) in
  match out p with
  | Returned _ => out r = out a /\ evs r = evs p ++ evs a
  | Raised e => out r = Raised e /\ evs r = evs p
  | OutOfFuel => out r = OutOfFuel /\ evs r = evs p
  end.
Proof.
  cbv zeta. rewrite init_out, init_evs, bind_run.
  destruct (out (poll_FStat fuel (constructed i2c address is_r_type s))) as [[]|e|];
    split; reflexivity.
Qed.

Lemma init_writes fuel i2c capacity terminationCurrent lowVoltage address is_r_type
  (s : state Bus) :
  let r := __init__ fuel i2c capacity terminationCurrent lowVoltage address is_r_type s in
  let p := poll_FStat fuel (constructed i2c address is_r_type s) in
  match out p with
  | Raised e => out r = Raised e /\ writes (evs r) = []
  | OutOfFuel => out r = OutOfFuel /\ writes (evs r) = []
  | Returned _ =>
  match raw_units capacity (LSB_CAPACITY is_r_type) with
  | Err e => out r = Raised e /\ writes (evs r) = []
  | Ok cap =>
  match raw_units terminationCurrent (LSB_CURRENT is_r_type) with
  | Err e => out r = Raised e /\ writes (evs r) = []
  | Ok cur =>
  let b1 := Struct.le16 (cap mod 65536) in
  let b2 := Struct.le16 (cur mod 65536) in
  let w1 := writeto_mem (bus (st p)) i2c address REG_DesignCap b1 in
  match fst w1 with
  | Err e => out r = Raised e /\ writes (evs r) = [(address, REG_DesignCap, b1)]
  | Ok _ =>
  let w2 := writeto_mem (snd w1) i2c address REG_IChgTerm b2 in
  match fst w2 with
  | Err e =>
      out r = Raised e /\
      writes (evs r) = [(address, REG_DesignCap, b1); (address, REG_IChgTerm, b2)]
  | Ok _ =>
  let w3 := writeto_mem (snd w2) i2c address REG_ModelCfg (model_cfg_bytes lowVoltage) in
  let all := [(address, REG_DesignCap, b1); (address, REG_IChgTerm, b2);
              (address, REG_ModelCfg, model_cfg_bytes lowVoltage)] in
  match fst w3 with
  | Err e => out r = Raised e /\ writes (evs r) = all
  | Ok _ =>
      out r = out (poll_ModelCfg fuel (mkState (mkMAX17262 i2c address is_r_type) (snd w3)))
      /\ writes (evs r) = all
  end end end end end end.
Proof.
  cbv zeta.
  pose proof (init_run fuel i2c capacity terminationCurrent lowVoltage address
                is_r_type s) as Hr.
  cbv zeta in Hr.
  destruct (poll_FStat_inv fuel (constructed i2c address is_r_type s))
    as (Hself & Hw & _). cbn [constructed self] in Hself.
  set (p := poll_FStat fuel (constructed i2c address is_r_type s)) in *.
  destruct (out p) as [[]|e|].
  2,3: destruct Hr as [-> ->]; split; [reflexivity | exact Hw].
  destruct Hr as [-> ->]. rewrite writes_app, Hw. cbn [app].
  pose proof (after_ready_run fuel capacity terminationCurrent lowVoltage
                i2c address is_r_type (st p) Hself) as Ha.
  cbv zeta in Ha. rewrite Hself in Ha.
  repeat match goal with
  | |- context [match ?x with Ok _ => _ | Err _ => _ end] =>
      destruct x;
      try (destruct Ha as [-> ->]; split; reflexivity)
  end.
  destruct Ha as [-> ->]. split; [reflexivity|].
  rewrite !writes_cons.
  match goal with
  | |- context [writes (evs (poll_ModelCfg ?f ?s0))] =>
      rewrite (proj2 (poll_ModelCfg_inv f s0))
  end.
  reflexivity.
Qed.

(** Once the scaling has given two integers, [__init__] raises only through
    a bus call: the last event of a run that raises is a call that raised, or
    a read that answered with fewer than two bytes. *)
Lemma init_raised fuel i2c capacity terminationCurrent lowVoltage address is_r_type
  (s : state Bus) (cap cur : Z) (e : exn) :
  raw_units capacity (LSB_CAPACITY is_r_type) = Ok cap ->
  raw_units terminationCurrent (LSB_CURRENT is_r_type) = Ok cur ->
  let r := __init__ fuel i2c capacity terminationCurrent lowVoltage address is_r_type s in
  out r = Raised e ->
  exists pre ev, evs r = pre ++ [ev] /\ event_raises ev = Some e.
Proof.
  intros Hcap Hcur. cbv zeta.
  pose proof (init_run fuel i2c capacity terminationCurrent lowVoltage address
                is_r_type s) as Hr.
  cbv zeta in Hr.
  destruct (poll_FStat_inv fuel (constructed i2c address is_r_type s))
    as (Hself & _ & _). cbn [constructed self] in Hself.
  pose proof (poll_raised REG_FStat 1 fuel (constructed i2c address is_r_type s)) as Hp.
  change (poll REG_FStat 1 fuel) with (poll_FStat fuel) in Hp.
  set (p := poll_FStat fuel (constructed i2c address is_r_type s)) in *.
  destruct (out p) as [[]|e'|]; destruct Hr as [-> ->].
  2: { intros [= <-]. apply Hp. reflexivity. }
  2: discriminate.
  clear Hp.
  pose proof (after_ready_run fuel capacity terminationCurrent lowVoltage
                i2c address is_r_type (st p) Hself) as Ha.
  cbv zeta in Ha. rewrite Hself, Hcap, Hcur in Ha.
  destruct (fst (writeto_mem (bus (st p)) i2c address REG_DesignCap _)) as [[]|e1] eqn:E1.
  2: { destruct Ha as [-> ->]. intros [= <-].
       eexists (evs p), _. split; [reflexivity|]. reflexivity. }
  destruct (fst (writeto_mem _ i2c address REG_IChgTerm _)) as [[]|e2] eqn:E2.
  2: { destruct Ha as [-> ->]. intros [= <-].
       eexists (evs p ++ [_]), _. split; [rewrite <- app_assoc; reflexivity|].
       reflexivity. }
  destruct (fst (writeto_mem _ i2c address REG_ModelCfg _)) as [[]|e3] eqn:E3.
  2: { destruct Ha as [-> ->]. intros [= <-].
       eexists (evs p ++ [_; _]), _. split; [rewrite <- app_assoc; reflexivity|].
       reflexivity. }
  destruct Ha as [-> ->]. intros Hout.
  change (poll_ModelCfg fuel) with (poll REG_ModelCfg 0x8000 fuel) in *.
  destruct (poll_raised _ _ _ _ _ Hout) as (pre & ev & -> & Hev).
  eexists (evs p ++ _ :: _ :: _ :: pre), ev.
  split; [rewrite <- app_assoc; reflexivity | exact Hev].
Qed.

(** *** A device that is never ready *)

Lemma poll_FStat_stuck (i2c : handle) (address : Z) :
  (forall b : Bus, exists data v b',
      readfrom_mem b i2c address REG_FStat 2 = (Ok data, b') /\
      decode "<H" (Ok data) = Ok v /\ Z.land v 1 <> 0) ->
  forall (fuel : nat) (s : state Bus),
    self_i2c (self s) = i2c -> self_address (self s) = address ->
    let r := poll_FStat fuel s in
    out r = OutOfFuel /\ List.length (reads REG_FStat (evs r)) = fuel.
Proof.
  intros Hstuck. induction fuel as [|fuel IH]; intros s Hi Ha.
  - split; reflexivity.
  - change (poll_FStat (S fuel) s) with (poll REG_FStat 1 (S fuel) s).
    cbv zeta. rewrite poll_S. unfold read16_run. cbv zeta. rewrite Hi, Ha.
    destruct (Hstuck (bus s)) as (data & v & b' & -> & Hd & Hv).
    cbn [fst snd]. rewrite Hd.
    unfold Py.truthy. apply Z.eqb_neq in Hv. rewrite Hv. cbn [negb out st evs].
    specialize (IH (mkState (self s) b') Hi Ha). cbv zeta in IH.
    destruct IH as [IHo IHn]. split; [exact IHo|].
    cbn [app reads flat_map read_of]. rewrite Z.eqb_refl. cbn [app List.length].
    f_equal. exact IHn.
Qed.

Lemma init_stuck (i2c : handle) (address : Z) :
  (forall b : Bus, exists data v b',
      readfrom_mem b i2c address REG_FStat 2 = (Ok data, b') /\
      decode "<H" (Ok data) = Ok v /\ Z.land v 1 <> 0) ->
  forall fuel capacity terminationCurrent lowVoltage is_r_type (s : state Bus),
    let r := __init__ fuel i2c capacity terminationCurrent lowVoltage address
               is_r_type s in
    out r = OutOfFuel /\ writes (evs r) = [] /\
    List.length (reads REG_FStat (evs r)) = fuel.
Proof.
  intros Hstuck fuel capacity terminationCurrent lowVoltage is_r_type s. cbv zeta.
  pose proof (init_run fuel i2c capacity terminationCurrent lowVoltage address
                is_r_type s) as Hr.
  cbv zeta in Hr.
  destruct (poll_FStat_stuck i2c address Hstuck fuel
              (constructed i2c address is_r_type s) eq_refl eq_refl) as [Ho Hn].
  destruct (poll_FStat_inv fuel (constructed i2c address is_r_type s))
    as (_ & Hw & _).
  rewrite Ho in Hr. destruct Hr as [-> ->]. repeat split; assumption.
Qed.

(** *** The accessors *)

Lemma accessor_run (q : quantity) (s : state Bus) :
  let r := accessor q s in
  let rd := readfrom_mem (bus s) (self_i2c (self s)) (self_address (self s))
              (table_register q) 2 in
  out r = of_result (rbind (decode (table_format q) (fst rd)) (fun raw =>
            Py.mul_int_float raw (table_factor q (self_is_r_type (self s))))) /\
  st r = mkState (self s) (snd rd) /\
  evs r = [ReadFromMem (self_i2c (self s)) (self_address (self s))
             (table_register q) 2 (fst rd)].
Proof.
  cbv zeta.
  destruct q; cbn [accessor table_register table_format table_signed table_factor];
    unfold state_of_charge, time_to_empty, time_to_full, current, voltage,
           capacity, temperature.
  all: try (rewrite (bind_run get_self), get_self_run; run_simpl;
            destruct (self_is_r_type (self s))).
  all: rewrite bind_run, ?read_uint16_run, ?read_int16_run; unfold read16_run.
  all: unfold REG_RepSOC, REG_TTE, REG_TTF, REG_Current, REG_VCell, REG_RepCap,
         REG_DieTemp.
  all: match goal with
       | |- context [readfrom_mem ?b ?i ?a ?m ?n] =>
           destruct (readfrom_mem b i a m n) as [res b']
       end; cbn [fst snd out st evs].
  all: match goal with
       | |- context [decode ?f ?x] => destruct (decode f x) as [raw|e]
       end; cbn [of_result rbind]; rewrite ?app_nil_r.
  all: try (repeat split; reflexivity).
  all: rewrite out_prepend, st_prepend, evs_prepend, lift_run; cbn [out st evs app].
  all: repeat split; reflexivity.
Qed.

End Runs.

(** ** Lists of events *)

Lemma no_write_in (l : list event) (ev : event) :
  writes l = [] -> In ev l -> is_write ev = false.
Proof.
  induction l as [|x l IH]; intros Hw Hin; [contradiction|].
  rewrite writes_cons in Hw. apply app_eq_nil in Hw as [Hx Hl].
  destruct Hin as [->|Hin]; [|exact (IH Hl Hin)].
  destruct ev; [reflexivity | discriminate | reflexivity].
Qed.

(** A write found in [l1 ++ l2], when [l1] has none, lies in [l2]. *)
Lemma write_after (l1 l2 pre post : list event) (ev : event) :
  writes l1 = [] -> is_write ev = true -> l1 ++ l2 = pre ++ ev :: post ->
  exists mid, pre = l1 ++ mid.
Proof.
  revert pre. induction l1 as [|x l1 IH]; intros pre Hw Hev Heq.
  - exists pre. reflexivity.
  - rewrite writes_cons in Hw. apply app_eq_nil in Hw as [Hx Hl].
    destruct pre as [|y pre]; cbn in Heq; injection Heq as Hxy Heq.
    + subst x. destruct ev; cbn in Hev, Hx; discriminate.
    + subst y. destruct (IH pre Hl Hev Heq) as [mid ->]. exists mid. reflexivity.
Qed.

(** * The claims *)

(** C6: for every unsigned 16-bit value [v], decoding (little-endian,
    unsigned) the little-endian encoding of [v] gives back [v]; for every
    signed [v] in [-32768, 32767], decoding (signed) the signed encoding of [v]
    gives back [v]. *)
Theorem codec_round_trip (v : Z) :
  (0 <= v <= 65535 ->
   rbind (Struct.pack "<H" v) (fun buf => decode "<H" (Ok buf)) = Ok v) /\
  (-32768 <= v <= 32767 ->
   rbind (Struct.pack "<h" v) (fun buf => decode "<h" (Ok buf)) = Ok v).
Proof.
  split; intros Hv.
  - pose proof (unpack_pack_H v Hv) as H.
    rewrite (pack_H_Ok v Hv) in *. cbn [rbind] in *.
    unfold decode. cbn [rbind]. rewrite H. reflexivity.
  - pose proof (unpack_pack_h v Hv) as H.
    rewrite pack_h in *. cbn [rbind] in *.
    unfold decode. cbn [rbind]. rewrite H. reflexivity.
Qed.

Lemma codec_round_trip_witness :
  rbind (Struct.pack "<H" 680) (fun buf => decode "<H" (Ok buf)) = Ok 680 /\
  rbind (Struct.pack "<h" (-400)) (fun buf => decode "<h" (Ok buf)) = Ok (-400).
Proof.
  split.
  - apply (proj1 (codec_round_trip 680)). lia.
  - apply (proj2 (codec_round_trip (-400))). lia.
Defined.

Section Claims.

Context {Bus : Type} {I2C_Bus : I2C Bus}.

(** C8: every accessor performs exactly one 2-byte register read on the bus,
    issues no bus write and leaves the fields of the driver object (bus
    handle, address, variant flag) as they were. *)
Theorem accessor_frame (q : quantity) (s : state Bus) :
  let r := accessor q s in
  let rd := readfrom_mem (bus s) (self_i2c (self s)) (self_address (self s))
              (table_register q) 2 in
  self (st r) = self s /\
  bus (st r) = snd rd /\
  evs r = [ReadFromMem (self_i2c (self s)) (self_address (self s))
             (table_register q) 2 (fst rd)] /\
  writes (evs r) = [].
Proof.
  cbv zeta. destruct (accessor_run q s) as (_ & Hst & Hevs).
  rewrite Hst, Hevs. repeat split.
Qed.

(** C4: for every accessor and every 16-bit raw register value, the accessor
    returns [raw * factor], with [raw] read signed or unsigned and [factor]
    taken for the variant, as the scale-factor table gives them.  The
    conversion of [raw] to a float is exact. *)
Theorem accessor_scaling (q : quantity) (s : state Bus)
  (data : list byte) (b' : Bus) (raw : Z) :
  readfrom_mem (bus s) (self_i2c (self s)) (self_address (self s))
    (table_register q) 2 = (Ok data, b') ->
  decode (table_format q) (Ok data) = Ok raw ->
  exists x,
    Py.float_of_int raw = Ok x /\ Py.int x = Ok raw /\
    out (accessor q s) =
    Returned (PrimFloat.mul x (table_factor q (self_is_r_type (self s)))).
Proof.
  intros Hrd Hdec.
  destruct (accessor_run q s) as (Hout & _). rewrite Hrd in Hout.
  cbn [fst] in Hout. rewrite Hdec in Hout. cbn [rbind] in Hout.
  destruct (decode_Ok _ _ _ Hdec) as (data' & _ & Hu).
  destruct (unpack_range _ _ _ Hu) as (w & [= <-] & Hrange).
  destruct (float_of_int_16bit raw) as (x & Hx & Hint).
  { destruct Hrange as [[_ ?]|[_ ?]]; lia. }
  exists x. repeat split; try assumption.
  rewrite Hout. unfold Py.mul_int_float. rewrite Hx. reflexivity.
Qed.

(** C7: when the bus answers the read of register 0x06 with bytes that decode
    (unsigned) to 25600, the state-of-charge accessor returns 100.0; when it
    answers the read of register 0x34 with bytes that decode (signed) to -400,
    the temperature accessor returns -1.5625. *)
Theorem accessor_examples (s : state Bus) :
  (forall data b',
     readfrom_mem (bus s) (self_i2c (self s)) (self_address (self s)) 0x06 2
       = (Ok data, b') ->
     decode "<H" (Ok data) = Ok 25600 ->
     out (state_of_charge s) = Returned 100%float) /\
  (forall data b',
     readfrom_mem (bus s) (self_i2c (self s)) (self_address (self s)) 0x34 2
       = (Ok data, b') ->
     decode "<h" (Ok data) = Ok (-400) ->
     out (temperature s) = Returned (-1.5625)%float).
Proof.
  split; intros data b' Hrd Hdec.
  - destruct (accessor_run StateOfCharge s) as (Hout & _).
    cbn [accessor table_register table_format table_signed] in Hout.
    rewrite Hrd in Hout. cbn [fst] in Hout. rewrite Hdec in Hout.
    rewrite Hout. vm_compute. reflexivity.
  - destruct (accessor_run DieTemperature s) as (Hout & _).
    cbn [accessor table_register table_format table_signed] in Hout.
    rewrite Hrd in Hout. cbn [fst] in Hout. rewrite Hdec in Hout.
    rewrite Hout. vm_compute. reflexivity.
Qed.

(** C1 (as amended): [__init__] writes the model-configuration register
    (0xDB) at most once, and once when it returns; the bytes are 00 80 when
    [lowVoltage] is true and 00 84 when it is false, whatever the other
    arguments, and they stand (little-endian) for the 16-bit values 0x8000 and
    0x8400. *)
Theorem model_cfg_written fuel i2c capacity terminationCurrent lowVoltage address
  is_r_type (s : state Bus) :
  let r := __init__ fuel i2c capacity terminationCurrent lowVoltage address is_r_type s in
  let cfg := model_cfg_writes (writes (evs r)) in
  (cfg = [] \/ cfg = [(address, REG_ModelCfg, model_cfg_bytes lowVoltage)]) /\
  (out r = Returned tt ->
   cfg = [(address, REG_ModelCfg, model_cfg_bytes lowVoltage)]) /\
  model_cfg_bytes lowVoltage = (if lowVoltage then [x00; x80] else [x00; x84]) /\
  decode "<H" (Ok (model_cfg_bytes lowVoltage))
  = Ok (if lowVoltage then 0x8000 else 0x8400).
Proof.
  cbv zeta.
  pose proof (init_writes fuel i2c capacity terminationCurrent lowVoltage address
                is_r_type s) as H.
  cbv zeta in H.
  assert (Hdec : decode "<H" (Ok (model_cfg_bytes lowVoltage))
                 = Ok (if lowVoltage then 0x8000 else 0x8400))
    by (destruct lowVoltage; reflexivity).
  assert (Hbytes : model_cfg_bytes lowVoltage
                   = (if lowVoltage then [x00; x80] else [x00; x84]))
    by reflexivity.
  repeat match type of H with
  | match ?x with _ => _ end => destruct x
  end.
  all: destruct H as [Ho ->].
  all: repeat split; try assumption.
  all: try (left; reflexivity); try (right; reflexivity).
  all: try (rewrite Ho; discriminate).
  all: intros _; reflexivity.
Qed.

(** C5: [__init__] turns the capacity and the termination current into raw
    register units by dividing by the factor of the variant and truncating
    toward zero, and writes them to the design-capacity and
    termination-current registers; 340 mAh at the R-type factor 0.5 gives raw
    680, which the capacity factor turns back into 340.0; 50000 uA gives raw
    320 at the R-type factor 156.25 and raw 960 at the H-type factor 52.083. *)
Theorem init_encodes_parameters fuel i2c capacity terminationCurrent lowVoltage address
  is_r_type (s : state Bus) :
  let r := __init__ fuel i2c capacity terminationCurrent lowVoltage address is_r_type s in
  (out r = Returned tt ->
   exists cap cur,
     raw_units capacity (LSB_CAPACITY is_r_type) = Ok cap /\
     raw_units terminationCurrent (LSB_CURRENT is_r_type) = Ok cur /\
     writes (evs r) =
     [(address, REG_DesignCap, Struct.le16 cap);
      (address, REG_IChgTerm, Struct.le16 (cur mod 65536));
      (address, REG_ModelCfg, model_cfg_bytes lowVoltage)]) /\
  raw_units (Py.Int 340) LSB_CAPACITY_R = Ok 680 /\
  Py.mul_int_float 680 LSB_CAPACITY_R = Ok 340%float /\
  raw_units (Py.Int 50000) LSB_CURRENT_R = Ok 320 /\
  raw_units (Py.Int 50000) LSB_CURRENT_H = Ok 960 /\
  raw_units (Py.Float 0.9) LSB_CAPACITY_R = Ok 1 /\
  raw_units (Py.Float (-0.9)) LSB_CAPACITY_R = Ok (-1).
Proof.
  cbv zeta. split; [|repeat split; vm_compute; reflexivity].
  pose proof (init_writes fuel i2c capacity terminationCurrent lowVoltage address
                is_r_type s) as H.
  cbv zeta in H. intros Hret.
  destruct (out (poll_FStat fuel (constructed i2c address is_r_type s))) as [[]|e|];
    [|destruct H as [Ho _]; congruence ..].
  destruct (raw_units capacity (LSB_CAPACITY is_r_type)) as [cap|e];
    [|destruct H as [Ho _]; congruence].
  destruct (raw_units terminationCurrent (LSB_CURRENT is_r_type)) as [cur|e];
    [|destruct H as [Ho _]; congruence].
  rewrite (le16_mod cap) in H.
  destruct (fst (writeto_mem _ i2c address REG_DesignCap _));
    [|destruct H as [Ho _]; congruence].
  destruct (fst (writeto_mem _ i2c address REG_IChgTerm _));
    [|destruct H as [Ho _]; congruence].
  exists cap, cur.
  destruct (fst (writeto_mem _ i2c address REG_ModelCfg _));
    destruct H as [Ho Hw]; [|congruence].
  repeat split. exact Hw.
Qed.

(** C3 (as amended): [__init__] has no check on the capacity and on the
    termination current and never raises [InvalidParameter]; [pack] checks no
    range either.  Whatever integers the scaling gives, negative or too large
    for 16 bits included, the registers written are an initial part of: design
    capacity, termination current, model configuration, with the low 16 bits
    of the scaled values as content, and all three when [__init__] returns;
    the design capacity is written as soon as the first loop has ended; and a
    run raises only through the bus: its last event is a call that raised or a
    read that answered with fewer than two bytes. *)
Theorem init_parameters_unchecked fuel i2c capacity terminationCurrent lowVoltage
  address is_r_type (s : state Bus) (cap cur : Z) :
  raw_units capacity (LSB_CAPACITY is_r_type) = Ok cap ->
  raw_units terminationCurrent (LSB_CURRENT is_r_type) = Ok cur ->
  let r := __init__ fuel i2c capacity terminationCurrent lowVoltage address is_r_type s in
  let p := poll_FStat fuel (constructed i2c address is_r_type s) in
  let all := [(address, REG_DesignCap, Struct.le16 (cap mod 65536));
              (address, REG_IChgTerm, Struct.le16 (cur mod 65536));
              (address, REG_ModelCfg, model_cfg_bytes lowVoltage)] in
  (exists rest, writes (evs r) ++ rest = all) /\
  (out r = Returned tt -> writes (evs r) = all) /\
  (out p = Returned tt ->
   exists rest,
     writes (evs r) = (address, REG_DesignCap, Struct.le16 (cap mod 65536)) :: rest) /\
  (forall e, out r = Raised e ->
     exists pre ev, evs r = pre ++ [ev] /\ event_raises ev = Some e).
Proof.
  intros Hcap Hcur. cbv zeta.
  pose proof (init_writes fuel i2c capacity terminationCurrent lowVoltage address
                is_r_type s) as H.
  cbv zeta in H. rewrite Hcap, Hcur in H.
  split; [|split; [|split]].
  - repeat match type of H with
    | match ?x with _ => _ end => destruct x
    end.
    all: destruct H as [_ ->]; eexists; cbn [app]; reflexivity.
  - repeat match type of H with
    | match ?x with _ => _ end => destruct x
    end.
    all: destruct H as [Ho ->]; try (rewrite Ho; discriminate).
    all: intros _; reflexivity.
  - intros Hp. rewrite Hp in H.
    repeat match type of H with
    | match ?x with _ => _ end => destruct x
    end.
    all: destruct H as [_ ->]; eexists; reflexivity.
  - intros e.
    exact (init_raised fuel i2c capacity terminationCurrent lowVoltage address
             is_r_type s cap cur e Hcap Hcur).
Qed.

(** C9 (as amended): [__init__] packs the scaled design capacity with the
    unsigned format and the scaled termination current with the signed one,
    and neither encoding fails.  What is written as design capacity reads back
    unsigned as the value modulo 65536, so as the value itself in 0..65535;
    what is written as termination current reads back signed as the value
    wrapped into -32768..32767, so as the value itself in that range, and as
    the value less 65536 for a value in 32768..65535, whose bytes are the
    unsigned encoding of the value.  A termination current above 32767 is not
    rejected: once the first loop has ended and the design capacity is
    written, it is written like any other. *)
Theorem termination_current_signed fuel i2c capacity terminationCurrent lowVoltage
  address is_r_type (s : state Bus) (cap cur : Z) :
  raw_units capacity (LSB_CAPACITY is_r_type) = Ok cap ->
  raw_units terminationCurrent (LSB_CURRENT is_r_type) = Ok cur ->
  let r := __init__ fuel i2c capacity terminationCurrent lowVoltage address is_r_type s in
  let p := poll_FStat fuel (constructed i2c address is_r_type s) in
  let w1 := writeto_mem (bus (st p)) i2c address REG_DesignCap
              (Struct.le16 (cap mod 65536)) in
  (forall buf, In (address, REG_DesignCap, buf) (writes (evs r)) ->
     decode "<H" (Ok buf) = Ok (cap mod 65536) /\
     (0 <= cap <= 65535 -> decode "<H" (Ok buf) = Ok cap)) /\
  (forall buf, In (address, REG_IChgTerm, buf) (writes (evs r)) ->
     decode "<h" (Ok buf) = Ok ((cur + 32768) mod 65536 - 32768) /\
     (-32768 <= cur <= 32767 -> decode "<h" (Ok buf) = Ok cur) /\
     (32767 < cur <= 65535 ->
      decode "<h" (Ok buf) = Ok (cur - 65536) /\ decode "<H" (Ok buf) = Ok cur)) /\
  (out p = Returned tt -> fst w1 = Ok tt ->
   In (address, REG_IChgTerm, Struct.le16 (cur mod 65536)) (writes (evs r))).
Proof.
  intros Hcap Hcur. cbv zeta.
  pose proof (init_writes fuel i2c capacity terminationCurrent lowVoltage address
                is_r_type s) as H.
  cbv zeta in H. rewrite Hcap, Hcur in H.
  assert (Hpre : exists rest,
            writes (evs (__init__ fuel i2c capacity terminationCurrent lowVoltage
                           address is_r_type s)) ++ rest
            = [(address, REG_DesignCap, Struct.le16 (cap mod 65536));
               (address, REG_IChgTerm, Struct.le16 (cur mod 65536));
               (address, REG_ModelCfg, model_cfg_bytes lowVoltage)]).
  { repeat match type of H with
    | match ?x with _ => _ end => destruct x
    end.
    all: destruct H as [_ ->]; eexists; cbn [app]; reflexivity. }
  destruct Hpre as [rest Hpre].
  assert (Hin : forall reg buf,
            In (address, reg, buf)
               (writes (evs (__init__ fuel i2c capacity terminationCurrent lowVoltage
                               address is_r_type s))) ->
            reg = REG_DesignCap /\ buf = Struct.le16 (cap mod 65536) \/
            reg = REG_IChgTerm /\ buf = Struct.le16 (cur mod 65536) \/
            reg = REG_ModelCfg).
  { intros reg buf Hi.
    assert (Hall : In (address, reg, buf)
                      [(address, REG_DesignCap, Struct.le16 (cap mod 65536));
                       (address, REG_IChgTerm, Struct.le16 (cur mod 65536));
                       (address, REG_ModelCfg, model_cfg_bytes lowVoltage)])
      by (rewrite <- Hpre; apply in_or_app; left; exact Hi).
    destruct Hall as [[= <- <-]|[[= <- <-]|[[= <- <-]|[]]]]; auto. }
  pose proof (Z.mod_pos_bound cap 65536 ltac:(lia)) as Hcm.
  pose proof (Z.mod_pos_bound cur 65536 ltac:(lia)) as Hum.
  split; [|split].
  - intros buf Hi.
    destruct (Hin _ _ Hi) as [[_ ->]|[[Hreg _]|Hreg]]; try discriminate Hreg.
    unfold decode. cbn [rbind]. rewrite decode_le16_H.
    split; [reflexivity|]. intros Hc. rewrite Z.mod_small by lia. reflexivity.
  - intros buf Hi.
    destruct (Hin _ _ Hi) as [[Hreg _]|[[_ ->]|Hreg]]; try discriminate Hreg.
    unfold decode. cbn [rbind]. rewrite decode_le16_h, decode_le16_H.
    split; [reflexivity|].
    pose proof (Z.div_mod (cur + 32768) 65536 ltac:(lia)) as Hs.
    pose proof (Z.mod_pos_bound (cur + 32768) 65536 ltac:(lia)) as Hsm.
    split; [intros Hc; f_equal; lia|].
    intros Hc. split; [f_equal; lia|].
    rewrite Z.mod_small by lia. reflexivity.
  - intros Hp Hw1. rewrite Hp, Hw1 in H.
    repeat match type of H with
    | match ?x with _ => _ end => destruct x
    end.
    all: destruct H as [_ ->]; cbn; auto.
Qed.

(** C2 (as amended): [__init__] has no bound on its first loop and no
    [InitTimeout].  On a bus whose flag-status register (0x3D) always reads
    with bit 0 set it does not terminate: whatever the number of polls allowed,
    it is still polling when they are used up, having read the register that
    many times, raised nothing and written nothing. *)
Theorem init_never_ready (i2c : handle) (address : Z) :
  (forall b : Bus, exists data v b',
      readfrom_mem b i2c address REG_FStat 2 = (Ok data, b') /\
      decode "<H" (Ok data) = Ok v /\ Z.land v 1 <> 0) ->
  forall fuel capacity terminationCurrent lowVoltage is_r_type (s : state Bus),
    let r := __init__ fuel i2c capacity terminationCurrent lowVoltage address
               is_r_type s in
    out r = OutOfFuel /\ writes (evs r) = [] /\
    List.length (reads REG_FStat (evs r)) = fuel.
Proof. exact (init_stuck i2c address). Qed.

(** C10: during [__init__] no register write is issued before a read of the
    flag-status register (0x3D) has returned a value with bit 0 clear; in a run
    in which that bit never reads clear, no register is written. *)
Theorem no_write_before_ready fuel i2c capacity terminationCurrent lowVoltage address
  is_r_type (s : state Bus) :
  let r := __init__ fuel i2c capacity terminationCurrent lowVoltage address is_r_type s in
  (forall pre ev post,
     evs r = pre ++ ev :: post -> is_write ev = true ->
     exists data v,
       In (ReadFromMem i2c address REG_FStat 2 (Ok data)) pre /\
       decode "<H" (Ok data) = Ok v /\ Z.land v 1 = 0) /\
  ((forall data v,
      In (ReadFromMem i2c address REG_FStat 2 (Ok data)) (evs r) ->
      decode "<H" (Ok data) = Ok v -> Z.land v 1 <> 0) ->
   writes (evs r) = []).
Proof.
  cbv zeta.
  pose proof (init_run fuel i2c capacity terminationCurrent lowVoltage address
                is_r_type s) as Hr.
  cbv zeta in Hr.
  destruct (poll_FStat_inv fuel (constructed i2c address is_r_type s))
    as (_ & Hw & Hgood). cbn [constructed self self_i2c self_address] in Hgood.
  set (p := poll_FStat fuel (constructed i2c address is_r_type s)) in *.
  split.
  - intros pre ev post Hsplit Hev.
    destruct (out p) as [[]|e|] eqn:Ep; destruct Hr as [_ Hevs].
    + rewrite Hevs in Hsplit.
      destruct (write_after _ _ _ _ _ Hw Hev Hsplit) as [mid ->].
      destruct (Hgood eq_refl) as (data & v & Hin & Hd & Hv).
      exists data, v. repeat split; try assumption.
      apply in_or_app. left. exact Hin.
    + rewrite Hevs in Hsplit.
      assert (Hin : In ev (evs p)) by (rewrite Hsplit; apply in_elt).
      rewrite (no_write_in _ _ Hw Hin) in Hev. discriminate.
    + rewrite Hevs in Hsplit.
      assert (Hin : In ev (evs p)) by (rewrite Hsplit; apply in_elt).
      rewrite (no_write_in _ _ Hw Hin) in Hev. discriminate.
  - intros Hnever.
    destruct (out p) as [[]|e|] eqn:Ep; destruct Hr as [_ Hevs].
    + destruct (Hgood eq_refl) as (data & v & Hin & Hd & Hv).
      exfalso. apply (Hnever data v); try assumption.
      rewrite Hevs. apply in_or_app. left. exact Hin.
    + rewrite Hevs. exact Hw.
    + rewrite Hevs. exact Hw.
Qed.

End Claims.

(** * Concrete runs *)

(** The construction of the example script returns. *)
Example example_init_returns :
  out (example_init 1 50000) = Returned tt /\
  writes (evs (example_init 1 50000)) =
  [(0x36, 0x18, [xa8; x02]); (0x36, 0x1E, [x40; x01]); (0x36, 0xDB, [x00; x80])].
Proof. split; vm_compute; reflexivity. Qed.

(** C1, as stated, fails: with [lowVoltage=True] the construction of the
    example script writes to register 0xDB bytes that stand for 0x8000, not
    for 0x0080. *)
Lemma model_cfg_word_not_0x0080 :
  ~ (forall buf,
       In (DEVICE_ADDRESS, REG_ModelCfg, buf) (writes (evs (example_init 0 50000))) ->
       decode "<H" (Ok buf) = Ok 0x0080).
Proof.
  intros H.
  specialize (H [x00; x80]).
  assert (Hin : In (DEVICE_ADDRESS, REG_ModelCfg, [x00; x80])
                   (writes (evs (example_init 0 50000))))
    by (vm_compute; auto).
  specialize (H Hin). clear Hin. vm_compute in H. discriminate.
Qed.

(** C2, as stated, fails: on the device that is never ready, no bound on the
    number of polls makes the construction terminate, by [InitTimeout] or
    otherwise. *)
Lemma stuck_never_times_out :
  ~ (exists fuel, out (stuck_init fuel) <> OutOfFuel).
Proof.
  intros [fuel H]. apply H. unfold stuck_init.
  apply (init_stuck (Bus := stuck) 2%nat DEVICE_ADDRESS).
  intros b. exists [x01; x00], 1, b.
  split; [reflexivity|]. split; [reflexivity|]. vm_compute. discriminate.
Qed.

Lemma init_never_ready_witness :
  out (stuck_init 3) = OutOfFuel /\ writes (evs (stuck_init 3)) = [] /\
  List.length (reads REG_FStat (evs (stuck_init 3))) = 3%nat.
Proof.
  apply (init_never_ready (Bus := stuck) 2%nat DEVICE_ADDRESS).
  intros b. exists [x01; x00], 1, b.
  split; [reflexivity|]. split; [reflexivity|]. vm_compute. discriminate.
Defined.

(** C3, as stated, fails: a negative design capacity is not rejected.  The
    construction with capacity -1 returns, having written all three
    registers. *)
Lemma invalid_parameters_not_rejected :
  ~ (forall capacity terminationCurrent cap cur,
       raw_units (Py.Int capacity) LSB_CAPACITY_R = Ok cap ->
       raw_units (Py.Int terminationCurrent) LSB_CURRENT_R = Ok cur ->
       capacity < 0 \/ terminationCurrent < 0 \/
       ~ (0 <= cap <= 65535) \/ ~ (-32768 <= cur <= 32767) ->
       exists e,
         out (unchecked_init capacity terminationCurrent) = Raised e /\
         writes (evs (unchecked_init capacity terminationCurrent)) = []).
Proof.
  intros H.
  destruct (H (-1) 50000 (-2) 320 eq_refl eq_refl ltac:(lia)) as (e & Ho & _).
  vm_compute in Ho. discriminate.
Qed.

(** What is written for values outside the registers' ranges: capacity -1
    (raw -2), capacity 32768 (raw 65536), termination current 10000000 (raw
    64000), 5120000 (raw 32768) and -50000 (raw -320). *)
Example out_of_range_constructions :
  (out (unchecked_init (-1) 50000) = Returned tt /\
   writes (evs (unchecked_init (-1) 50000)) =
   [(0x36, 0x18, [xfe; xff]); (0x36, 0x1E, [x40; x01]); (0x36, 0xDB, [x00; x80])]) /\
  (out (unchecked_init 32768 50000) = Returned tt /\
   writes (evs (unchecked_init 32768 50000)) =
   [(0x36, 0x18, [x00; x00]); (0x36, 0x1E, [x40; x01]); (0x36, 0xDB, [x00; x80])]) /\
  (out (unchecked_init 340 10000000) = Returned tt /\
   writes (evs (unchecked_init 340 10000000)) =
   [(0x36, 0x18, [xa8; x02]); (0x36, 0x1E, [x00; xfa]); (0x36, 0xDB, [x00; x80])]) /\
  (out (unchecked_init 340 5120000) = Returned tt /\
   writes (evs (unchecked_init 340 5120000)) =
   [(0x36, 0x18, [xa8; x02]); (0x36, 0x1E, [x00; x80]); (0x36, 0xDB, [x00; x80])]) /\
  (out (unchecked_init 340 (-50000)) = Returned tt /\
   writes (evs (unchecked_init 340 (-50000))) =
   [(0x36, 0x18, [xa8; x02]); (0x36, 0x1E, [xc0; xfe]); (0x36, 0xDB, [x00; x80])]).
Proof. repeat split; vm_compute; reflexivity. Qed.

Lemma init_parameters_unchecked_witness :
  writes (evs (unchecked_init (-1) 10000000)) =
  [(DEVICE_ADDRESS, REG_DesignCap, Struct.le16 ((-2) mod 65536));
   (DEVICE_ADDRESS, REG_IChgTerm, Struct.le16 (64000 mod 65536));
   (DEVICE_ADDRESS, REG_ModelCfg, model_cfg_bytes true)].
Proof.
  apply (proj1 (proj2 (init_parameters_unchecked (Bus := gauge) 5 2%nat (Py.Int (-1))
           (Py.Int 10000000) true DEVICE_ADDRESS true (blank (mkGauge 0 []))
           (-2) 64000 eq_refl eq_refl))).
  reflexivity.
Defined.

(** C9, as stated, fails: a termination current whose scaled value exceeds
    32767 does not make the construction fail.  With 5120000 uA (raw 32768)
    the construction returns. *)
Lemma large_termination_current_not_rejected :
  ~ (forall terminationCurrent cur,
       raw_units (Py.Int terminationCurrent) LSB_CURRENT_R = Ok cur -> 32767 < cur ->
       exists e, out (unchecked_init 340 terminationCurrent) = Raised e).
Proof.
  intros H.
  destruct (H 5120000 32768 eq_refl ltac:(lia)) as (e & Ho).
  vm_compute in Ho. discriminate.
Qed.

Lemma termination_current_signed_witness :
  In (DEVICE_ADDRESS, REG_IChgTerm, Struct.le16 (64000 mod 65536))
     (writes (evs (unchecked_init 340 10000000))).
Proof.
  apply (proj2 (proj2 (termination_current_signed (Bus := gauge) 5 2%nat (Py.Int 340)
           (Py.Int 10000000) true DEVICE_ADDRESS true (blank (mkGauge 0 []))
           680 64000 eq_refl eq_refl)));
    reflexivity.
Defined.

Lemma accessor_scaling_witness :
  exists x,
    Py.float_of_int (-2) = Ok x /\ Py.int x = Ok (-2) /\
    out (accessor Current sample_readings) = Returned (PrimFloat.mul x 52.083%float).
Proof.
  apply (accessor_scaling Current sample_readings [xfe; xff] (bus sample_readings) (-2));
    reflexivity.
Defined.

Lemma accessor_examples_witness :
  out (state_of_charge sample_readings) = Returned 100%float /\
  out (temperature sample_readings) = Returned (-1.5625)%float.
Proof.
  split.
  - apply (proj1 (accessor_examples sample_readings) [x00; x64] (bus sample_readings));
      reflexivity.
  - apply (proj2 (accessor_examples sample_readings) [x70; xfe] (bus sample_readings));
      reflexivity.
Defined.

Lemma init_encodes_parameters_witness :
  exists cap cur,
    raw_units (Py.Int 340) (LSB_CAPACITY true) = Ok cap /\
    raw_units (Py.Int 50000) (LSB_CURRENT true) = Ok cur /\
    writes (evs (example_init 1 50000)) =
    [(DEVICE_ADDRESS, REG_DesignCap, Struct.le16 cap);
     (DEVICE_ADDRESS, REG_IChgTerm, Struct.le16 (cur mod 65536));
     (DEVICE_ADDRESS, REG_ModelCfg, model_cfg_bytes true)].
Proof.
  apply (proj1 (init_encodes_parameters (Bus := gauge) 5 2%nat (Py.Int 340)
           (Py.Int 50000) true DEVICE_ADDRESS true (blank (mkGauge 1 [])))).
  reflexivity.
Defined.

Lemma no_write_before_ready_witness :
  exists data v,
    In (ReadFromMem 2%nat DEVICE_ADDRESS REG_FStat 2 (Ok data))
       [ReadFromMem 2%nat DEVICE_ADDRESS REG_FStat 2 (Ok [x01; x00]);
        SleepMs 10;
        ReadFromMem 2%nat DEVICE_ADDRESS REG_FStat 2 (Ok [x00; x00])] /\
    decode "<H" (Ok data) = Ok v /\ Z.land v 1 = 0.
Proof.
  apply (proj1 (no_write_before_ready (Bus := gauge) 5 2%nat (Py.Int 340)
           (Py.Int 50000) true DEVICE_ADDRESS true (blank (mkGauge 1 [])))
         _ (WriteToMem 2%nat DEVICE_ADDRESS REG_DesignCap [xa8; x02] (Ok tt))
         [WriteToMem 2%nat DEVICE_ADDRESS REG_IChgTerm [x40; x01] (Ok tt);
          WriteToMem 2%nat DEVICE_ADDRESS REG_ModelCfg [x00; x80] (Ok tt);
          ReadFromMem 2%nat DEVICE_ADDRESS REG_ModelCfg 2 (Ok [x00; x00])]);
    reflexivity.
Defined.

(** * Further properties *)

(** ** More on the codec *)

Lemma byte_of_Z_of_byte (b : byte) : Struct.byte_of_Z (Struct.Z_of_byte b) = b.
Proof.
  unfold Struct.byte_of_Z.
  rewrite Z.mod_small by apply Z_of_byte_range.
  unfold Struct.Z_of_byte. rewrite N2Z.id, Byte.of_to_N. reflexivity.
Qed.

Lemma le16_bytes (b0 b1 : byte) :
  Struct.le16 (Struct.Z_of_byte b0 + 256 * Struct.Z_of_byte b1) = [b0; b1].
Proof.
  pose proof (Z_of_byte_range b0) as H0.
  pose proof (Z_of_byte_range b1) as H1.
  unfold Struct.le16. f_equal; [|f_equal].
  - rewrite <- (byte_of_Z_of_byte b0) at 2. unfold Struct.byte_of_Z.
    replace ((Struct.Z_of_byte b0 + 256 * Struct.Z_of_byte b1) mod 256)
      with (Struct.Z_of_byte b0 mod 256); [reflexivity|].
    rewrite (Z.mul_comm 256), Z.mod_add by lia. reflexivity.
  - rewrite <- (byte_of_Z_of_byte b1) at 2. f_equal.
    rewrite Z.shiftr_div_pow2 by lia. change (2 ^ 8) with 256.
    rewrite (Z.mul_comm 256), Z.div_add by lia.
    rewrite Z.div_small by lia. lia.
Qed.

(** X11: what the driver decodes from two bytes encodes back to the same two
    bytes, in both formats: the codec loses nothing of a register. *)
Theorem decode_then_pack (b0 b1 : byte) :
  rbind (decode "<H" (Ok [b0; b1])) (Struct.pack "<H") = Ok [b0; b1] /\
  rbind (decode "<h" (Ok [b0; b1])) (Struct.pack "<h") = Ok [b0; b1].
Proof.
  pose proof (Z_of_byte_range b0) as H0.
  pose proof (Z_of_byte_range b1) as H1.
  unfold decode. cbn [rbind]. rewrite unpack_H_word, unpack_h_word.
  cbn [rbind Py.getitem nth_error]. cbv zeta.
  set (w := Struct.Z_of_byte b0 + 256 * Struct.Z_of_byte b1).
  assert (Hw : 0 <= w <= 65535) by (unfold w; lia).
  split.
  - rewrite pack_H_Ok by exact Hw. unfold w. rewrite le16_bytes. reflexivity.
  - destruct (Z.ltb_spec w 32768) as [Hlt|Hge].
    + rewrite pack_h. rewrite Z.mod_small by lia.
      unfold w. rewrite le16_bytes. reflexivity.
    + rewrite pack_h.
      replace ((w - 65536) mod 65536) with w.
      * unfold w. rewrite le16_bytes. reflexivity.
      * replace (w - 65536) with (w + (-1) * 65536) by lia.
        rewrite Z.mod_add by lia. rewrite Z.mod_small by lia. reflexivity.
Qed.

Section Further.

Context {Bus : Type} {I2C_Bus : I2C Bus}.

(** ** The two register reads *)

(** X10: on the same state [read_int16] and [read_uint16] make the same bus
    call and leave the same state; the first returns the two's complement
    reading of what the second returns, in -32768..32767 against 0..65535,
    and raises whenever the second does. *)
Theorem read_int16_twos_complement (mem_addr : Z) (s : state Bus) :
  let ru := read_uint16 mem_addr s in
  let ri := read_int16 mem_addr s in
  st ri = st ru /\ evs ri = evs ru /\
  (forall u, out ru = Returned u ->
     0 <= u <= 65535 /\
     out ri = Returned (if u <? 32768 then u else u - 65536) /\
     -32768 <= (if u <? 32768 then u else u - 65536) <= 32767) /\
  (forall e, out ru = Raised e -> out ri = Raised e).
Proof.
  cbv zeta. rewrite read_uint16_run, read_int16_run. unfold read16_run.
  destruct (readfrom_mem (bus s) (self_i2c (self s)) (self_address (self s)) mem_addr 2)
    as [[data|e] b]; cbn [fst snd out st evs decode rbind of_result].
  2: { repeat split; try discriminate. intros e' H. exact H. }
  destruct (le_lt_dec 2 (List.length data)) as [Hlen|Hlen].
  - destruct data as [|b0 [|b1 rest]]; cbn [List.length] in Hlen; try lia.
    rewrite unpack_H_word, unpack_h_word.
    cbn [rbind Py.getitem nth_error of_result]. cbv zeta.
    assert (Hw : 0 <= Struct.Z_of_byte b0 + 256 * Struct.Z_of_byte b1 <= 65535).
    { pose proof (Z_of_byte_range b0). pose proof (Z_of_byte_range b1). lia. }
    revert Hw. generalize (Struct.Z_of_byte b0 + 256 * Struct.Z_of_byte b1).
    intros w Hw.
    split; [reflexivity|]. split; [reflexivity|]. split; [|discriminate].
    intros u [= <-].
    destruct (Z.ltb_spec w 32768); repeat split; lia.
  - rewrite !unpack_short by exact Hlen. cbn [rbind of_result].
    repeat split; try discriminate. intros e' H. exact H.
Qed.

(** ** Errors of the accessors *)

(** X12: an accessor raises exactly when the bus call raises (the same
    exception) or answers with fewer than two bytes ([ValueError]); on an
    answer of two bytes or more it returns the float that the first two bytes
    stand for, times the factor: further bytes are not looked at. *)
Theorem accessor_errors (q : quantity) (s : state Bus) :
  let rd := readfrom_mem (bus s) (self_i2c (self s)) (self_address (self s))
              (table_register q) 2 in
  (forall e, fst rd = Err e -> out (accessor q s) = Raised e) /\
  (forall data, fst rd = Ok data -> (List.length data < 2)%nat ->
     out (accessor q s) = Raised ValueError) /\
  (forall b0 b1 rest, fst rd = Ok (b0 :: b1 :: rest) ->
     exists raw x,
       decode (table_format q) (Ok [b0; b1]) = Ok raw /\
       Py.float_of_int raw = Ok x /\
       out (accessor q s) =
       Returned (PrimFloat.mul x (table_factor q (self_is_r_type (self s))))).
Proof.
  cbv zeta. destruct (accessor_run q s) as (Hout & _). rewrite Hout.
  split; [|split].
  - intros e ->. reflexivity.
  - intros data -> Hlen. unfold decode. cbn [rbind].
    rewrite unpack_short by exact Hlen. reflexivity.
  - intros b0 b1 rest ->.
    assert (Hd : exists raw,
               decode (table_format q) (Ok (b0 :: b1 :: rest)) = Ok raw /\
               decode (table_format q) (Ok [b0; b1]) = Ok raw /\
               -32768 <= raw <= 65535).
    { pose proof (Z_of_byte_range b0). pose proof (Z_of_byte_range b1).
      unfold decode, table_format. cbn [rbind].
      destruct (table_signed q); rewrite ?unpack_H_word, ?unpack_h_word;
        cbn [rbind Py.getitem nth_error]; cbv zeta; eexists;
        (split; [reflexivity|]); (split; [reflexivity|]).
      - destruct (Z.ltb_spec (Struct.Z_of_byte b0 + 256 * Struct.Z_of_byte b1) 32768);
          lia.
      - lia. }
    destruct Hd as (raw & -> & Hd2 & Hraw). cbn [rbind].
    destruct (float_of_int_16bit raw Hraw) as (x & Hx & _).
    exists raw, x. split; [exact Hd2|]. split; [exact Hx|].
    unfold Py.mul_int_float. rewrite Hx. reflexivity.
Qed.

(** X13: the variant flag matters to the current and the remaining capacity
    only: every other accessor makes the same bus call and gives the same
    result on an R-type and on an H-type driver. *)
Theorem accessor_variant_independent (q : quantity) (s : state Bus) (variant : bool) :
  q <> Current -> q <> RemainingCapacity ->
  let s' := mkState (mkMAX17262 (self_i2c (self s)) (self_address (self s)) variant)
                    (bus s) in
  out (accessor q s') = out (accessor q s) /\
  evs (accessor q s') = evs (accessor q s) /\
  bus (st (accessor q s')) = bus (st (accessor q s)).
Proof.
  intros Hc Hr. cbv zeta.
  destruct (accessor_run q s) as (Ho & Hs & He).
  destruct (accessor_run q
              (mkState (mkMAX17262 (self_i2c (self s)) (self_address (self s)) variant)
                       (bus s))) as (Ho' & Hs' & He').
  cbn [self bus self_i2c self_address self_is_r_type] in Ho', Hs', He'.
  rewrite Ho, Ho', Hs, Hs', He, He'.
  destruct q; try contradiction; repeat split; reflexivity.
Qed.

(** ** The order of the writes *)

(** X3: in every run of [__init__], however it ends, the registers written
    are an initial part of: design capacity, termination current, model
    configuration.  Each is written at most once, and the model configuration
    (the reset) only after both parameters. *)
Theorem writes_in_order fuel i2c capacity terminationCurrent lowVoltage address
  is_r_type (s : state Bus) :
  let r := __init__ fuel i2c capacity terminationCurrent lowVoltage address is_r_type s in
  exists rest,
    written_registers (evs r) ++ rest = [REG_DesignCap; REG_IChgTerm; REG_ModelCfg].
Proof.
  cbv zeta.
  pose proof (init_writes fuel i2c capacity terminationCurrent lowVoltage address
                is_r_type s) as H.
  cbv zeta in H. unfold written_registers.
  repeat match type of H with
  | match ?x with _ => _ end => destruct x
  end.
  all: destruct H as [_ ->]; cbn [map fst snd].
  all: eexists; cbn [app]; reflexivity.
Qed.

(** X14: the construction of the example script, on any bus: it writes
    a8 02 (680) to the design-capacity register, then 40 01 (320) to the
    termination-current register, then 00 80 to the model-configuration
    register of the device at 0x36, all three when it returns and an initial
    part of them otherwise. *)
Theorem battery_writes (fuel : nat) (s : state Bus) :
  let r := battery fuel s in
  let all := [(0x36, 0x18, [xa8; x02]); (0x36, 0x1E, [x40; x01]);
              (0x36, 0xDB, [x00; x80])] in
  (exists rest, writes (evs r) ++ rest = all) /\
  (out r = Returned tt -> writes (evs r) = all).
Proof.
  cbv zeta. unfold battery.
  pose proof (init_writes fuel 2%nat (Py.Int your_capacity)
                (Py.Int your_termination_current) true DEVICE_ADDRESS true s) as H.
  cbv zeta in H.
  change (raw_units (Py.Int your_capacity) (LSB_CAPACITY true)) with (Ok (A := Z) 680) in H.
  change (raw_units (Py.Int your_termination_current) (LSB_CURRENT true))
    with (Ok (A := Z) 320) in H.
  cbv iota beta in H.
  change (Struct.le16 (680 mod 65536)) with [xa8; x02] in H.
  change (Struct.le16 (320 mod 65536)) with [x40; x01] in H.
  cbv zeta in H.
  repeat match type of H with
  | match ?x with _ => _ end => destruct x
  end.
  all: destruct H as [Ho ->].
  all: split; [eexists; cbn [app]; reflexivity|].
  all: try (rewrite Ho; discriminate).
  all: intros _; reflexivity.
Qed.

(** ** A small logic of runs *)

Lemma triple_ret {A : Type} (Inv : state Bus -> Prop) (P : event -> Prop)
  (a : A) (Q : A -> Prop) :
  Q a -> triple Inv P (ret a) Q.
Proof.
  intros Hq s Hs. cbn. repeat split; [exact Hs | constructor|].
  intros a' [= <-]. exact Hq.
Qed.

Lemma triple_lift {A : Type} (Inv : state Bus -> Prop) (P : event -> Prop)
  (r : result A) (Q : A -> Prop) :
  (forall a, r = Ok a -> Q a) -> triple Inv P (lift r) Q.
Proof.
  intros Hq s Hs. rewrite lift_run. cbn [out st evs].
  repeat split; [exact Hs | constructor|].
  destruct r as [a|e]; cbn; intros a' [= <-]. apply Hq. reflexivity.
Qed.

Lemma triple_get_self (Inv : state Bus -> Prop) (P : event -> Prop) (me : MAX17262) :
  (forall s, Inv s -> self s = me) -> triple Inv P get_self (fun a => a = me).
Proof.
  intros Hme s Hs. cbn. repeat split; [exact Hs | constructor|].
  intros a [= <-]. apply Hme. exact Hs.
Qed.

Lemma triple_sleep_ms (Inv : state Bus -> Prop) (P : event -> Prop) (ms : Z) :
  P (SleepMs ms) -> triple Inv P (sleep_ms ms) (fun _ => True).
Proof.
  intros Hp s Hs. cbn. repeat split; [exact Hs|]. repeat constructor. exact Hp.
Qed.

Lemma triple_readfrom_mem (Inv : state Bus -> Prop) (P : event -> Prop)
  (i2c : handle) (addr mem_addr nbytes : Z) :
  (forall s b, Inv s -> Inv (mkState (self s) b)) ->
  (forall res, P (ReadFromMem i2c addr mem_addr nbytes res)) ->
  triple Inv P (i2c_readfrom_mem i2c addr mem_addr nbytes) (fun _ => True).
Proof.
  intros Hbus Hp s Hs. unfold i2c_readfrom_mem.
  destruct (readfrom_mem (bus s) i2c addr mem_addr nbytes) as [[data|e] b];
    cbn [out st evs]; repeat split; auto.
Qed.

Lemma triple_writeto_mem (Inv : state Bus -> Prop) (P : event -> Prop)
  (i2c : handle) (addr mem_addr : Z) (buf : list byte) :
  (forall s b, Inv s -> Inv (mkState (self s) b)) ->
  (forall res, P (WriteToMem i2c addr mem_addr buf res)) ->
  triple Inv P (i2c_writeto_mem i2c addr mem_addr buf) (fun _ => True).
Proof.
  intros Hbus Hp s Hs. rewrite write_run. cbv zeta. cbn [out st evs].
  repeat split; auto.
Qed.

Lemma triple_bind {A C : Type} (Inv : state Bus -> Prop) (P : event -> Prop)
  (m : M Bus A) (k : A -> M Bus C) (Q : A -> Prop) (R : C -> Prop) :
  triple Inv P m Q -> (forall a, Q a -> triple Inv P (k a) R) ->
  triple Inv P (bind m k) R.
Proof.
  intros Hm Hk s Hs. destruct (Hm s Hs) as (Hi & Hp & Hq).
  rewrite bind_run. destruct (out (m s)) as [a|e|] eqn:Eo.
  - destruct (Hk a (Hq a eq_refl) (st (m s)) Hi) as (Hi' & Hp' & Hq').
    rewrite out_prepend, st_prepend, evs_prepend.
    repeat split; [exact Hi' | apply Forall_app; split; assumption | exact Hq'].
  - cbn [out st evs]. repeat split; [exact Hi | exact Hp | discriminate].
  - cbn [out st evs]. repeat split; [exact Hi | exact Hp | discriminate].
Qed.

Lemma triple_weaken {A : Type} (Inv : state Bus -> Prop) (P : event -> Prop)
  (m : M Bus A) (Q Q' : A -> Prop) :
  triple Inv P m Q -> (forall a, Q a -> Q' a) -> triple Inv P m Q'.
Proof.
  intros Hm Hq s Hs. destruct (Hm s Hs) as (Hi & Hp & Ha).
  repeat split; auto.
Qed.

Lemma triple_while (Inv : state Bus -> Prop) (P : event -> Prop)
  (cond : M Bus bool) (body : M Bus unit) (fuel : nat) :
  triple Inv P cond (fun _ => True) -> triple Inv P body (fun _ => True) ->
  triple Inv P (while_ fuel cond body) (fun _ => True).
Proof.
  intros Hc Hb. induction fuel as [|fuel IH].
  - intros s Hs. cbn. repeat split; [exact Hs | constructor].
  - cbn [while_]. eapply triple_bind; [exact Hc|].
    intros [|] _.
    + eapply triple_bind; [exact Hb|]. intros _ _. exact IH.
    + apply triple_ret. exact I.
Qed.

Lemma pack_length (fmt : string) (v : Z) (buf : list byte) :
  Struct.pack fmt v = Ok buf -> List.length buf = 2%nat.
Proof.
  unfold Struct.pack.
  destruct (String.eqb fmt "<H"); [|destruct (String.eqb fmt "<h")];
    intros [= <-]; reflexivity.
Qed.

Lemma allowed_read (i2c : handle) (address reg : Z) (res : result (list byte)) :
  reg = REG_FStat \/ reg = REG_ModelCfg ->
  allowed i2c address (ReadFromMem i2c address reg 2 res).
Proof.
  intros Hreg. unfold allowed, init_event_ok.
  rewrite Nat.eqb_refl, Z.eqb_refl. cbn [andb].
  destruct Hreg as [-> | ->]; reflexivity.
Qed.

Lemma allowed_write (i2c : handle) (address reg : Z) (buf : list byte)
  (res : result unit) :
  reg = REG_DesignCap \/ reg = REG_IChgTerm \/ reg = REG_ModelCfg ->
  List.length buf = 2%nat ->
  allowed i2c address (WriteToMem i2c address reg buf res).
Proof.
  intros Hreg Hlen. unfold allowed, init_event_ok.
  rewrite Nat.eqb_refl, Z.eqb_refl, Hlen. cbn [andb Nat.eqb].
  destruct Hreg as [-> | [-> | ->]]; reflexivity.
Qed.

Lemma triple_read_uint16 (i2c : handle) (address : Z) (is_r_type : bool) (reg : Z) :
  reg = REG_FStat \/ reg = REG_ModelCfg ->
  triple (configured i2c address is_r_type) (allowed i2c address)
         (read_uint16 reg) (fun _ => True).
Proof.
  intros Hreg. unfold read_uint16.
  eapply triple_bind; [apply (triple_get_self _ _ (mkMAX17262 i2c address is_r_type));
                       intros s Hs; exact Hs|].
  intros me ->. cbn [self_i2c self_address].
  eapply triple_bind.
  { apply triple_readfrom_mem; [intros s b Hs; exact Hs|].
    intros res. apply allowed_read. exact Hreg. }
  intros data _.
  eapply triple_bind; [apply (triple_lift _ _ _ (fun _ => True)); auto|].
  intros t0 _. apply triple_lift. auto.
Qed.

Lemma triple_poll (i2c : handle) (address : Z) (is_r_type : bool)
  (reg mask : Z) (fuel : nat) :
  reg = REG_FStat \/ reg = REG_ModelCfg ->
  triple (configured i2c address is_r_type) (allowed i2c address)
         (poll reg mask fuel) (fun _ => True).
Proof.
  intros Hreg. unfold poll. apply triple_while.
  - eapply triple_bind; [apply triple_read_uint16; exact Hreg|].
    intros v _. apply triple_ret. exact I.
  - apply triple_sleep_ms. reflexivity.
Qed.

Lemma triple_int_div (Inv : state Bus -> Prop) (P : event -> Prop)
  (x : Py.number) (lsb : float) :
  triple Inv P (int_div x lsb) (fun _ => True).
Proof.
  unfold int_div.
  eapply triple_bind; [apply (triple_lift _ _ _ (fun _ => True)); auto|].
  intros q _. apply triple_lift. auto.
Qed.

Lemma triple_after_ready (i2c : handle) (address : Z) (is_r_type : bool)
  fuel capacity terminationCurrent lowVoltage :
  triple (configured i2c address is_r_type) (allowed i2c address)
         (after_ready fuel capacity terminationCurrent lowVoltage is_r_type)
         (fun _ => True).
Proof.
  pose proof (triple_get_self (configured i2c address is_r_type)
                (allowed i2c address) (mkMAX17262 i2c address is_r_type)
                (fun s Hs => Hs)) as Hget.
  assert (Hwrite : forall reg buf,
             reg = REG_DesignCap \/ reg = REG_IChgTerm \/ reg = REG_ModelCfg ->
             List.length buf = 2%nat ->
             triple (configured i2c address is_r_type) (allowed i2c address)
                    (i2c_writeto_mem i2c address reg buf) (fun _ => True)).
  { intros reg buf Hreg Hlen. apply triple_writeto_mem; [intros s b Hs; exact Hs|].
    intros res. apply allowed_write; assumption. }
  unfold after_ready.
  eapply triple_bind with (Q := fun _ => True).
  { destruct is_r_type.
    all: (eapply triple_bind; [apply triple_int_div|]); intros cap _.
    all: (eapply triple_bind; [apply triple_int_div|]); intros cur _.
    all: apply triple_ret; exact I. }
  intros cc _.
  eapply triple_bind; [exact Hget|]. intros me ->. cbn [self_i2c self_address].
  eapply triple_bind;
    [apply (triple_lift _ _ _ (fun buf => List.length buf = 2%nat));
     intros buf Hb; exact (pack_length _ _ _ Hb)|].
  intros b1 Hb1.
  eapply triple_bind; [apply Hwrite; auto|]. intros _ _.
  eapply triple_bind; [exact Hget|]. intros me ->. cbn [self_i2c self_address].
  eapply triple_bind;
    [apply (triple_lift _ _ _ (fun buf => List.length buf = 2%nat));
     intros buf Hb; exact (pack_length _ _ _ Hb)|].
  intros b2 Hb2.
  eapply triple_bind; [apply Hwrite; auto|]. intros _ _.
  eapply triple_bind with (Q := fun _ => True).
  { destruct lowVoltage.
    all: (eapply triple_bind; [exact Hget|]); intros me ->;
      cbn [self_i2c self_address]; apply Hwrite; auto. }
  intros _ _. apply (triple_poll i2c address is_r_type REG_ModelCfg 0x8000 fuel).
  right. reflexivity.
Qed.

Lemma triple_init_body (i2c : handle) (address : Z) (is_r_type : bool)
  fuel capacity terminationCurrent lowVoltage :
  triple (configured i2c address is_r_type) (allowed i2c address)
         (poll_FStat fuel ;;
          after_ready fuel capacity terminationCurrent lowVoltage is_r_type)
         (fun _ => True).
Proof.
  eapply triple_bind.
  - apply (triple_poll i2c address is_r_type REG_FStat 1 fuel). left. reflexivity.
  - intros _ _. apply triple_after_ready.
Qed.

(** X1: [__init__] sets the three attributes of the object from its
    arguments and nothing changes them afterwards: however the run ends
    (returned, raised, or still polling), the object holds the bus handle, the
    address and the variant flag that were passed, whatever it held before. *)
Theorem init_sets_attributes fuel i2c capacity terminationCurrent lowVoltage address
  is_r_type (s : state Bus) :
  self (st (__init__ fuel i2c capacity terminationCurrent lowVoltage address
              is_r_type s))
  = mkMAX17262 i2c address is_r_type.
Proof.
  rewrite init_st.
  apply (triple_init_body i2c address is_r_type fuel capacity terminationCurrent
           lowVoltage (constructed i2c address is_r_type s)).
  reflexivity.
Qed.

(** X2: what [__init__] never does.  Every bus call of every run is a 2-byte
    transfer with the device at [address] on the bus [i2c]; it reads no
    register but the flag-status and model-configuration registers, writes no
    register but the design-capacity, termination-current and
    model-configuration registers, and every pause is of 10 ms. *)
Theorem init_events_allowed fuel i2c capacity terminationCurrent lowVoltage address
  is_r_type (s : state Bus) :
  forallb (init_event_ok i2c address)
    (evs (__init__ fuel i2c capacity terminationCurrent lowVoltage address
            is_r_type s))
  = true.
Proof.
  rewrite init_evs. apply forallb_forall. apply Forall_forall.
  apply (triple_init_body i2c address is_r_type fuel capacity terminationCurrent
           lowVoltage (constructed i2c address is_r_type s)).
  reflexivity.
Qed.

(** ** Bus failures *)

Lemma fail_stop_nil {A : Type} (r : run Bus A) : evs r = [] -> fail_stop r.
Proof.
  intros Hnil pre ev post e Hsplit _. rewrite Hnil in Hsplit.
  destruct pre; discriminate.
Qed.

Lemma fail_stop_single {A : Type} (r : run Bus A) (ev0 : event) :
  evs r = [ev0] -> (forall e, event_error ev0 = Some e -> out r = Raised e) ->
  fail_stop r.
Proof.
  intros Hone Herr pre ev post e Hsplit Hev. rewrite Hone in Hsplit.
  destruct pre as [|x pre].
  - injection Hsplit as <- <-. split; [reflexivity | exact (Herr e Hev)].
  - destruct pre; discriminate.
Qed.

Lemma fail_stop_bind {A C : Type} (m : M Bus A) (k : A -> M Bus C) :
  (forall s, fail_stop (m s)) -> (forall a s, fail_stop (k a s)) ->
  forall s, fail_stop (bind m k s).
Proof.
  intros Hm Hk s pre ev post e. rewrite bind_run.
  destruct (out (m s)) as [a|e'|] eqn:Eo.
  - rewrite out_prepend, evs_prepend. intros Hsplit Hev.
    apply app_eq_app in Hsplit as [l [[H1 H2]|[H1 H2]]].
    + destruct l as [|x l].
      * cbn in H2. apply (Hk a (st (m s)) [] ev post e); [symmetry; exact H2 | exact Hev].
      * injection H2 as <- ->.
        destruct (Hm s pre ev l e H1 Hev) as [_ Hr]. congruence.
    + exact (Hk a (st (m s)) l ev post e H2 Hev).
  - cbn [out evs]. intros Hsplit Hev.
    destruct (Hm s pre ev post e Hsplit Hev) as [Hp Hr]. split; [exact Hp | congruence].
  - cbn [out evs]. intros Hsplit Hev.
    destruct (Hm s pre ev post e Hsplit Hev) as [Hp Hr]. split; [exact Hp | congruence].
Qed.

Lemma fail_stop_while (cond : M Bus bool) (body : M Bus unit) (fuel : nat) :
  (forall s, fail_stop (cond s)) -> (forall s, fail_stop (body s)) ->
  forall s, fail_stop (while_ fuel cond body s).
Proof.
  intros Hc Hb. induction fuel as [|fuel IH]; intros s.
  - apply fail_stop_nil. reflexivity.
  - cbn [while_]. apply fail_stop_bind; [exact Hc|].
    intros [|] s'.
    + apply fail_stop_bind; [exact Hb | intros _; exact IH].
    + apply fail_stop_nil. reflexivity.
Qed.

Lemma fail_stop_lift {A : Type} (r : result A) (s : state Bus) : fail_stop (lift r s).
Proof. apply fail_stop_nil. rewrite lift_run. reflexivity. Qed.

Lemma fail_stop_readfrom_mem (i2c : handle) (addr mem_addr nbytes : Z) (s : state Bus) :
  fail_stop (i2c_readfrom_mem i2c addr mem_addr nbytes s).
Proof.
  unfold i2c_readfrom_mem.
  destruct (readfrom_mem (bus s) i2c addr mem_addr nbytes) as [[data|e] b];
    eapply fail_stop_single; try reflexivity; cbn; congruence.
Qed.

Lemma fail_stop_writeto_mem (i2c : handle) (addr mem_addr : Z) (buf : list byte)
  (s : state Bus) :
  fail_stop (i2c_writeto_mem i2c addr mem_addr buf s).
Proof.
  unfold i2c_writeto_mem.
  destruct (writeto_mem (bus s) i2c addr mem_addr buf) as [[[]|e] b];
    eapply fail_stop_single; try reflexivity; cbn; congruence.
Qed.

Lemma fail_stop_read_uint16 (mem_addr : Z) (s : state Bus) :
  fail_stop (read_uint16 mem_addr s).
Proof.
  revert s. unfold read_uint16.
  apply fail_stop_bind; [intros s; apply fail_stop_nil; reflexivity|].
  intros me. apply fail_stop_bind; [apply fail_stop_readfrom_mem|].
  intros data. apply fail_stop_bind; [apply fail_stop_lift|].
  intros t0. apply fail_stop_lift.
Qed.

Lemma fail_stop_int_div (x : Py.number) (lsb : float) (s : state Bus) :
  fail_stop (int_div x lsb s).
Proof. apply fail_stop_nil. rewrite int_div_run. reflexivity. Qed.

(** X4: [__init__] stops at the first bus call that raises.  In every run, a
    read or write that raised is the last event of the run, and the run ends
    by raising that same exception: nothing is retried, and no bus call
    follows a failure. *)
Theorem init_fail_stop fuel i2c capacity terminationCurrent lowVoltage address
  is_r_type (s : state Bus) (pre post : list event) (ev : event) (e : exn) :
  let r := __init__ fuel i2c capacity terminationCurrent lowVoltage address is_r_type s in
  evs r = pre ++ ev :: post -> event_error ev = Some e ->
  post = [] /\ out r = Raised e.
Proof.
  cbv zeta. revert pre ev post e.
  change (fail_stop (__init__ fuel i2c capacity terminationCurrent lowVoltage address
                       is_r_type s)).
  revert s. unfold __init__.
  assert (Hget : forall s : state Bus, fail_stop (get_self s))
    by (intros s; apply fail_stop_nil; reflexivity).
  assert (Hpoll : forall reg mask (s : state Bus),
             fail_stop (while_ fuel
               (v <- read_uint16 reg ;; ret (Py.truthy (Z.land v mask)))
               (sleep_ms 10) s)).
  { intros reg mask. apply fail_stop_while.
    - apply fail_stop_bind; [apply fail_stop_read_uint16|].
      intros v s. apply fail_stop_nil. reflexivity.
    - intros s. eapply fail_stop_single; [reflexivity|]. cbn. discriminate. }
  do 3 (apply fail_stop_bind; [intros s; apply fail_stop_nil; reflexivity | intros _]).
  apply fail_stop_bind; [apply Hpoll | intros _].
  apply fail_stop_bind.
  { destruct is_r_type.
    all: apply fail_stop_bind; [apply fail_stop_int_div | intros cap].
    all: apply fail_stop_bind; [apply fail_stop_int_div | intros cur].
    all: intros s; apply fail_stop_nil; reflexivity. }
  intros cc.
  apply fail_stop_bind; [exact Hget | intros me].
  apply fail_stop_bind; [apply fail_stop_lift | intros b1].
  apply fail_stop_bind; [apply fail_stop_writeto_mem | intros _].
  apply fail_stop_bind; [exact Hget | intros me'].
  apply fail_stop_bind; [apply fail_stop_lift | intros b2].
  apply fail_stop_bind; [apply fail_stop_writeto_mem | intros _].
  apply fail_stop_bind.
  { destruct lowVoltage.
    all: apply fail_stop_bind; [exact Hget | intros me''].
    all: apply fail_stop_writeto_mem. }
  intros _. apply Hpoll.
Qed.

(** ** The second loop: the wait for the end of the reset *)

Lemma poll_returned (reg mask : Z) (fuel : nat) :
  forall s : state Bus,
    out (poll reg mask fuel s) = Returned tt ->
    exists pre data v,
      evs (poll reg mask fuel s)
      = pre ++ [ReadFromMem (self_i2c (self s)) (self_address (self s)) reg 2 (Ok data)] /\
      decode "<H" (Ok data) = Ok v /\ Z.land v mask = 0.
Proof.
  induction fuel as [|fuel IH]; intros s; [rewrite poll_O; discriminate|].
  rewrite poll_S. cbv zeta. unfold read16_run.
  destruct (readfrom_mem (bus s) (self_i2c (self s)) (self_address (self s)) reg 2)
    as [res b]. cbn [fst snd out st evs].
  destruct (decode "<H" res) as [v|e] eqn:Ed; [|discriminate].
  destruct (Py.truthy (Z.land v mask)) eqn:Et; cbn [out st evs].
  - intros Hout. destruct (IH _ Hout) as (pre & data & w & Hevs & Hd & Hw).
    cbn [self] in Hevs. rewrite Hevs.
    exists (ReadFromMem (self_i2c (self s)) (self_address (self s)) reg 2 res
            :: SleepMs 10 :: pre), data, w.
    repeat split; assumption.
  - intros _. destruct (decode_Ok _ _ _ Ed) as (data & -> & _).
    exists [], data, v. repeat split; [exact Ed|].
    unfold Py.truthy in Et. apply negb_false_iff, Z.eqb_eq in Et. exact Et.
Qed.

Lemma poll_stuck_inv (reg mask : Z) (Pb : Bus -> Prop) (i2c : handle) (address : Z) :
  (forall b, Pb b -> exists data v b',
      readfrom_mem b i2c address reg 2 = (Ok data, b') /\
      decode "<H" (Ok data) = Ok v /\ Z.land v mask <> 0 /\ Pb b') ->
  forall (fuel : nat) (s : state Bus),
    self_i2c (self s) = i2c -> self_address (self s) = address -> Pb (bus s) ->
    out (poll reg mask fuel s) = OutOfFuel.
Proof.
  intros Hstuck. induction fuel as [|fuel IH]; intros s Hi Ha Hb; [reflexivity|].
  rewrite poll_S. cbv zeta. unfold read16_run. rewrite Hi, Ha.
  destruct (Hstuck (bus s) Hb) as (data & v & b' & -> & Hd & Hv & Hb').
  cbn [fst snd]. rewrite Hd.
  unfold Py.truthy. apply Z.eqb_neq in Hv. rewrite Hv. cbn [negb out st evs].
  apply IH; assumption.
Qed.

(** X5: [__init__] returns only after the reset has ended.  When it returns,
    the last event of the run is a read of the model-configuration register
    that found bit 15 clear, and the three registers were all written before
    it. *)
Theorem init_returns_after_reset fuel i2c capacity terminationCurrent lowVoltage
  address is_r_type (s : state Bus) :
  let r := __init__ fuel i2c capacity terminationCurrent lowVoltage address is_r_type s in
  out r = Returned tt ->
  exists pre data v,
    evs r = pre ++ [ReadFromMem i2c address REG_ModelCfg 2 (Ok data)] /\
    decode "<H" (Ok data) = Ok v /\ Z.land v 0x8000 = 0 /\
    written_registers pre = [REG_DesignCap; REG_IChgTerm; REG_ModelCfg].
Proof.
  cbv zeta. intros Hret.
  pose proof (init_run fuel i2c capacity terminationCurrent lowVoltage address
                is_r_type s) as Hr.
  cbv zeta in Hr.
  destruct (poll_FStat_inv fuel (constructed i2c address is_r_type s))
    as (Hself & Hw & _). cbn [constructed self] in Hself.
  set (p := poll_FStat fuel (constructed i2c address is_r_type s)) in *.
  destruct (out p) as [[]|e|]; [|destruct Hr as [Ho _]; congruence ..].
  destruct Hr as [Ho He]. rewrite Ho in Hret. rewrite He.
  pose proof (after_ready_run fuel capacity terminationCurrent lowVoltage
                i2c address is_r_type (st p) Hself) as Ha.
  cbv zeta in Ha. rewrite Hself in Ha.
  repeat match type of Ha with
  | match ?x with Ok _ => _ | Err _ => _ end =>
      destruct x; [|destruct Ha as [Ha _]; congruence]
  end.
  destruct Ha as [Hao Hae]. rewrite Hao in Hret.
  destruct (poll_returned REG_ModelCfg 0x8000 fuel _ Hret)
    as (pre & data & v & Hevs & Hd & Hv).
  match type of Hret with
  | out (poll_ModelCfg _ ?s0) = _ => destruct (poll_ModelCfg_inv fuel s0) as [_ Hwm]
  end.
  change (poll_ModelCfg fuel) with (poll REG_ModelCfg 0x8000 fuel) in Hae, Hwm.
  cbn [self self_i2c self_address] in Hevs.
  rewrite Hevs in Hae, Hwm. rewrite Hae.
  rewrite writes_app in Hwm. apply app_eq_nil in Hwm as [Hwpre _].
  eexists (evs p ++ _ :: _ :: _ :: pre), data, v.
  split; [rewrite <- app_assoc; cbn [app]; reflexivity|].
  split; [exact Hd|]. split; [exact Hv|].
  unfold written_registers. rewrite writes_app, Hw. cbn [app].
  rewrite !writes_cons, Hwpre. reflexivity.
Qed.

(** X6: a reset that never ends.  If, from the write of the model
    configuration on, the device always answers the read of that register with
    bit 15 set, [__init__] never returns; and a run in which the first loop has
    ended and that is still going on when the bound is reached has written
    all three registers. *)
Theorem init_reset_never_clears (Pb : Bus -> Prop) fuel i2c capacity
  terminationCurrent lowVoltage address is_r_type (s : state Bus) :
  (forall b, Pb b -> exists data v b',
      readfrom_mem b i2c address REG_ModelCfg 2 = (Ok data, b') /\
      decode "<H" (Ok data) = Ok v /\ Z.land v 0x8000 <> 0 /\ Pb b') ->
  (forall b res b',
      writeto_mem b i2c address REG_ModelCfg (model_cfg_bytes lowVoltage) = (res, b') ->
      Pb b') ->
  let r := __init__ fuel i2c capacity terminationCurrent lowVoltage address is_r_type s in
  out r <> Returned tt /\
  (out (poll_FStat fuel (constructed i2c address is_r_type s)) = Returned tt ->
   out r = OutOfFuel ->
   written_registers (evs r) = [REG_DesignCap; REG_IChgTerm; REG_ModelCfg]).
Proof.
  intros Hread Hwrite. cbv zeta.
  pose proof (init_writes fuel i2c capacity terminationCurrent lowVoltage address
                is_r_type s) as H.
  cbv zeta in H. unfold written_registers.
  set (p := poll_FStat fuel (constructed i2c address is_r_type s)) in *.
  destruct (out p) as [[]|e|];
    [|destruct H as [Ho _]; split; [congruence | discriminate] ..].
  repeat match type of H with
  | match ?x with Ok _ => _ | Err _ => _ end =>
      destruct x; [|destruct H as [Ho _]; split; [congruence | congruence]]
  end.
  destruct H as [Ho ->].
  change (poll_ModelCfg fuel) with (poll REG_ModelCfg 0x8000 fuel) in Ho.
  rewrite (poll_stuck_inv REG_ModelCfg 0x8000 Pb i2c address Hread fuel) in Ho;
    try reflexivity.
  - split; [congruence | intros _ _; reflexivity].
  - cbn [bus]. eapply Hwrite. apply surjective_pairing.
Qed.

(** ** A device that is ready at once *)

(** X7: the shortest construction.  When the first read of the flag-status
    register finds bit 0 clear, the two scaled values fit their registers, the
    three writes succeed and the first read of the model-configuration
    register finds bit 15 clear, [__init__] returns after exactly five bus
    calls, in this order, and without any pause. *)
Theorem init_ready_at_once fuel i2c capacity terminationCurrent lowVoltage address
  is_r_type (s : state Bus) (cap cur v0 v1 : Z) (d0 d1 : list byte)
  (b0 b1 b2 b3 b4 : Bus) :
  readfrom_mem (bus s) i2c address REG_FStat 2 = (Ok d0, b0) ->
  decode "<H" (Ok d0) = Ok v0 -> Z.land v0 1 = 0 ->
  raw_units capacity (LSB_CAPACITY is_r_type) = Ok cap -> 0 <= cap <= 65535 ->
  raw_units terminationCurrent (LSB_CURRENT is_r_type) = Ok cur ->
  -32768 <= cur <= 32767 ->
  writeto_mem b0 i2c address REG_DesignCap (Struct.le16 cap) = (Ok tt, b1) ->
  writeto_mem b1 i2c address REG_IChgTerm (Struct.le16 (cur mod 65536)) = (Ok tt, b2) ->
  writeto_mem b2 i2c address REG_ModelCfg (model_cfg_bytes lowVoltage) = (Ok tt, b3) ->
  readfrom_mem b3 i2c address REG_ModelCfg 2 = (Ok d1, b4) ->
  decode "<H" (Ok d1) = Ok v1 -> Z.land v1 0x8000 = 0 ->
  let r := __init__ (S fuel) i2c capacity terminationCurrent lowVoltage address
             is_r_type s in
  out r = Returned tt /\
  evs r =
  [ReadFromMem i2c address REG_FStat 2 (Ok d0);
   WriteToMem i2c address REG_DesignCap (Struct.le16 cap) (Ok tt);
   WriteToMem i2c address REG_IChgTerm (Struct.le16 (cur mod 65536)) (Ok tt);
   WriteToMem i2c address REG_ModelCfg (model_cfg_bytes lowVoltage) (Ok tt);
   ReadFromMem i2c address REG_ModelCfg 2 (Ok d1)].
Proof.
  intros Hr0 Hd0 Hv0 Hcap Hc Hcur Hi Hw1 Hw2 Hw3 Hr1 Hd1 Hv1. cbv zeta.
  pose proof (init_run (S fuel) i2c capacity terminationCurrent lowVoltage address
                is_r_type s) as Hr.
  cbv zeta in Hr.
  assert (Hp : poll_FStat (S fuel) (constructed i2c address is_r_type s)
               = mkRun (Returned tt) (mkState (mkMAX17262 i2c address is_r_type) b0)
                       [ReadFromMem i2c address REG_FStat 2 (Ok d0)]).
  { change (poll_FStat (S fuel)) with (poll REG_FStat 1 (S fuel)).
    rewrite poll_S. cbv zeta. unfold read16_run.
    cbn [constructed self bus self_i2c self_address].
    rewrite Hr0. cbn [fst snd]. rewrite Hd0.
    unfold Py.truthy. rewrite Hv0. reflexivity. }
  rewrite Hp in Hr. cbn [out st evs] in Hr. destruct Hr as [-> ->].
  pose proof (after_ready_run (S fuel) capacity terminationCurrent lowVoltage
                i2c address is_r_type
                (mkState (mkMAX17262 i2c address is_r_type) b0) eq_refl) as Ha.
  cbv zeta in Ha. cbn [bus self] in Ha.
  rewrite Hcap, Hcur, (Z.mod_small cap 65536) in Ha by lia.
  rewrite Hw1 in Ha. cbn [fst snd] in Ha.
  rewrite Hw2 in Ha. cbn [fst snd] in Ha.
  rewrite Hw3 in Ha. cbn [fst snd] in Ha.
  assert (Hpm : poll_ModelCfg (S fuel) (mkState (mkMAX17262 i2c address is_r_type) b3)
                = mkRun (Returned tt) (mkState (mkMAX17262 i2c address is_r_type) b4)
                        [ReadFromMem i2c address REG_ModelCfg 2 (Ok d1)]).
  { change (poll_ModelCfg (S fuel)) with (poll REG_ModelCfg 0x8000 (S fuel)).
    rewrite poll_S. cbv zeta. unfold read16_run.
    cbn [self bus self_i2c self_address].
    rewrite Hr1. cbn [fst snd]. rewrite Hd1.
    unfold Py.truthy. rewrite Hv1. reflexivity. }
  rewrite Hpm in Ha. cbn [out evs] in Ha. destruct Ha as [-> ->].
  split; reflexivity.
Qed.

(** ** The time slept *)

Lemma sleep_total_app (l1 l2 : list event) :
  sleep_total (l1 ++ l2) = sleep_total l1 + sleep_total l2.
Proof.
  induction l1 as [|x l1 IH]; cbn [app sleep_total fold_right]; [reflexivity|].
  fold (sleep_total (l1 ++ l2)). fold (sleep_total l1). lia.
Qed.

Lemma busy_reads_app (reg mask : Z) (l1 l2 : list event) :
  busy_reads reg mask (l1 ++ l2)
  = (busy_reads reg mask l1 + busy_reads reg mask l2)%nat.
Proof. unfold busy_reads. rewrite filter_app, length_app. reflexivity. Qed.

Lemma busy_reads_cons (reg mask : Z) (ev : event) (l : list event) :
  busy_reads reg mask (ev :: l)
  = ((if busy_read reg mask ev then 1 else 0) + busy_reads reg mask l)%nat.
Proof. unfold busy_reads. cbn [filter]. destruct (busy_read reg mask ev); reflexivity. Qed.

Lemma sleep_total_cons (ev : event) (l : list event) :
  sleep_total (ev :: l) = sleep_of ev + sleep_total l.
Proof. reflexivity. Qed.

(** In a polling loop every read that finds the bit set is followed by one
    pause of 10 ms, and there is no other pause. *)
Lemma poll_sleep (reg mask : Z) (fuel : nat) :
  forall s : state Bus,
    sleep_total (evs (poll reg mask fuel s))
    = 10 * Z.of_nat (busy_reads reg mask (evs (poll reg mask fuel s))).
Proof.
  induction fuel as [|fuel IH]; intros s; [reflexivity|].
  rewrite poll_S. cbv zeta. unfold read16_run.
  destruct (readfrom_mem (bus s) (self_i2c (self s)) (self_address (self s)) reg 2)
    as [res b]. cbn [fst snd out st evs].
  destruct (decode "<H" res) as [v|e] eqn:Ed.
  - destruct (Py.truthy (Z.land v mask)) eqn:Et; cbn [out st evs app].
    + rewrite !sleep_total_cons, !busy_reads_cons, IH.
      cbn [sleep_of busy_read]. rewrite Z.eqb_refl, Ed, Et. cbn [andb]. lia.
    + rewrite !sleep_total_cons, !busy_reads_cons.
      cbn [sleep_of busy_read]. rewrite Z.eqb_refl, Ed, Et. reflexivity.
  - cbn [out st evs]. rewrite !sleep_total_cons, !busy_reads_cons.
    cbn [sleep_of busy_read]. rewrite Z.eqb_refl, Ed. reflexivity.
Qed.

Lemma poll_other_register (reg mask reg' mask' : Z) (fuel : nat) :
  reg' <> reg ->
  forall s : state Bus, busy_reads reg' mask' (evs (poll reg mask fuel s)) = 0%nat.
Proof.
  intros Hne. apply Z.eqb_neq in Hne. rewrite Z.eqb_sym in Hne.
  induction fuel as [|fuel IH]; intros s; [reflexivity|].
  rewrite poll_S. cbv zeta. unfold read16_run.
  destruct (readfrom_mem (bus s) (self_i2c (self s)) (self_address (self s)) reg 2)
    as [res b]. cbn [fst snd out st evs].
  destruct (decode "<H" res) as [v|e];
    [destruct (Py.truthy (Z.land v mask))|]; cbn [out st evs app].
  all: rewrite !busy_reads_cons; cbn [busy_read]; rewrite Hne; cbn [andb].
  - rewrite IH. reflexivity.
  - reflexivity.
  - reflexivity.
Qed.

(** X8: the time [__init__] sleeps.  In every run the pauses add up to 10 ms
    for each read of the flag-status register that found bit 0 set plus 10 ms
    for each read of the model-configuration register that found bit 15 set;
    a construction on a device that is ready at both polls does not sleep. *)
Theorem init_sleep_total fuel i2c capacity terminationCurrent lowVoltage address
  is_r_type (s : state Bus) :
  let r := __init__ fuel i2c capacity terminationCurrent lowVoltage address is_r_type s in
  sleep_total (evs r)
  = 10 * Z.of_nat (busy_reads REG_FStat 0x0001 (evs r)
                   + busy_reads REG_ModelCfg 0x8000 (evs r)).
Proof.
  cbv zeta.
  pose proof (init_run fuel i2c capacity terminationCurrent lowVoltage address
                is_r_type s) as Hr.
  cbv zeta in Hr.
  destruct (poll_FStat_inv fuel (constructed i2c address is_r_type s))
    as (Hself & _ & _). cbn [constructed self] in Hself.
  pose proof (poll_sleep REG_FStat 1 fuel (constructed i2c address is_r_type s)) as Hp1.
  pose proof (poll_other_register REG_FStat 1 REG_ModelCfg 0x8000 fuel
                ltac:(discriminate) (constructed i2c address is_r_type s)) as Hp2.
  change (poll REG_FStat 1 fuel) with (poll_FStat fuel) in Hp1, Hp2.
  set (p := poll_FStat fuel (constructed i2c address is_r_type s)) in *.
  destruct (out p) as [[]|e|]; destruct Hr as [_ ->].
  2,3: rewrite Hp1, Hp2, Nat.add_0_r; reflexivity.
  rewrite sleep_total_app, !busy_reads_app, Hp1, Hp2.
  pose proof (after_ready_run fuel capacity terminationCurrent lowVoltage
                i2c address is_r_type (st p) Hself) as Ha.
  cbv zeta in Ha. rewrite Hself in Ha.
  repeat match type of Ha with
  | match ?x with Ok _ => _ | Err _ => _ end =>
      destruct x;
      [|destruct Ha as [_ ->];
        rewrite ?sleep_total_cons, ?busy_reads_cons;
        cbn [sleep_of busy_read sleep_total busy_reads fold_right filter List.length];
        lia]
  end.
  destruct Ha as [_ ->].
  rewrite !sleep_total_cons, !busy_reads_cons. cbn [sleep_of busy_read].
  change (poll_ModelCfg fuel) with (poll REG_ModelCfg 0x8000 fuel).
  rewrite poll_sleep.
  rewrite (poll_other_register REG_ModelCfg 0x8000 REG_FStat 1 fuel ltac:(discriminate)).
  lia.
Qed.

End Further.

(** ** Concrete runs for the further properties *)

Lemma accessor_variant_independent_witness :
  let s' := mkState (mkMAX17262 2%nat DEVICE_ADDRESS true) (bus sample_readings) in
  out (accessor Voltage s') = out (accessor Voltage sample_readings) /\
  evs (accessor Voltage s') = evs (accessor Voltage sample_readings) /\
  bus (st (accessor Voltage s')) = bus (st (accessor Voltage sample_readings)).
Proof.
  apply (accessor_variant_independent Voltage sample_readings true); discriminate.
Defined.

Lemma init_fail_stop_witness :
  @nil event = [] /\
  out (__init__ 3 2%nat (Py.Int 340) (Py.Int 50000) true DEVICE_ADDRESS true
         (blank Absent))
  = Raised (OSError 19).
Proof.
  apply (init_fail_stop (Bus := absent) 3 2%nat (Py.Int 340) (Py.Int 50000) true
           DEVICE_ADDRESS true (blank Absent) [] []
           (ReadFromMem 2%nat DEVICE_ADDRESS REG_FStat 2 (Err (OSError 19)))
           (OSError 19));
    reflexivity.
Defined.

Lemma init_returns_after_reset_witness :
  exists pre data v,
    evs (example_init 1 50000)
    = pre ++ [ReadFromMem 2%nat DEVICE_ADDRESS REG_ModelCfg 2 (Ok data)] /\
    decode "<H" (Ok data) = Ok v /\ Z.land v 0x8000 = 0 /\
    written_registers pre = [REG_DesignCap; REG_IChgTerm; REG_ModelCfg].
Proof.
  apply (init_returns_after_reset (Bus := gauge) 5 2%nat (Py.Int 340) (Py.Int 50000)
           true DEVICE_ADDRESS true (blank (mkGauge 1 []))).
  reflexivity.
Defined.

Lemma init_reset_never_clears_witness :
  let r := __init__ 4 2%nat (Py.Int 340) (Py.Int 50000) true DEVICE_ADDRESS true
             (blank (mkRegfile [])) in
  out r <> Returned tt /\
  (out (poll_FStat 4 (constructed 2%nat DEVICE_ADDRESS true (blank (mkRegfile []))))
   = Returned tt ->
   out r = OutOfFuel ->
   written_registers (evs r) = [REG_DesignCap; REG_IChgTerm; REG_ModelCfg]).
Proof.
  apply (init_reset_never_clears (Bus := regfile)
           (fun b => lookup REG_ModelCfg (cells b) = [x00; x80])).
  - intros b Hb. exists [x00; x80], 0x8000, b.
    split; [cbn; rewrite Hb; reflexivity|].
    split; [reflexivity|]. split; [vm_compute; discriminate | exact Hb].
  - intros b res b' H. injection H as _ <-. reflexivity.
Defined.

Lemma init_ready_at_once_witness :
  let r := __init__ 1 2%nat (Py.Int 340) (Py.Int 50000) true DEVICE_ADDRESS true
             (blank (mkGauge 0 [])) in
  out r = Returned tt /\
  evs r =
  [ReadFromMem 2%nat DEVICE_ADDRESS REG_FStat 2 (Ok [x00; x00]);
   WriteToMem 2%nat DEVICE_ADDRESS REG_DesignCap (Struct.le16 680) (Ok tt);
   WriteToMem 2%nat DEVICE_ADDRESS REG_IChgTerm (Struct.le16 (320 mod 65536)) (Ok tt);
   WriteToMem 2%nat DEVICE_ADDRESS REG_ModelCfg (model_cfg_bytes true) (Ok tt);
   ReadFromMem 2%nat DEVICE_ADDRESS REG_ModelCfg 2 (Ok [x00; x00])].
Proof.
  apply (init_ready_at_once (Bus := gauge) 0 2%nat (Py.Int 340) (Py.Int 50000) true
           DEVICE_ADDRESS true (blank (mkGauge 0 [])) 680 320 0 0
           [x00; x00] [x00; x00]
           (mkGauge 0 [])
           (mkGauge 0 [(REG_DesignCap, [xa8; x02])])
           (mkGauge 0 [(REG_IChgTerm, [x40; x01]); (REG_DesignCap, [xa8; x02])])
           (mkGauge 0 [(REG_ModelCfg, [x00; x00]); (REG_IChgTerm, [x40; x01]);
                       (REG_DesignCap, [xa8; x02])])
           (mkGauge 0 [(REG_ModelCfg, [x00; x00]); (REG_IChgTerm, [x40; x01]);
                       (REG_DesignCap, [xa8; x02])]));
    try reflexivity; try (vm_compute; split; discriminate).
Defined.

(** The device that is absent: the construction of the example script raises
    at its first bus call and writes nothing. *)
Example battery_on_absent_bus :
  out (battery 3 (blank Absent)) = Raised (OSError 19) /\
  evs (battery 3 (blank Absent))
  = [ReadFromMem 2%nat 0x36 0x3D 2 (Err (OSError 19))].
Proof. split; reflexivity. Qed.
